(** * The imitation tutorials: the custom environment and the tutorial scripts

    The repository holds three tutorial notebooks and one page of the
    documentation.  The only class it defines is [ObservationMatchingEnv]
    (docs/tutorials/10_train_custom_env.ipynb, first code cell): it is
    embedded as functions on an explicit object state, with the numpy
    generator and gym's seeding as parameters.  The scripts themselves are
    straight-line calls into libraries: they are kept as the syntax trees
    of their code cells, with a run semantics in which any library
    operation may raise, and with the analyses that read definitions,
    call origins, stages and printed values off the trees. *)

From Stdlib Require Import ZArith QArith Qabs Ascii String List Bool Lia.
Import ListNotations.

Open Scope Z_scope.

Set Warnings "-register-all".

(** ** Results of calls that may raise *)

Inductive pyexn : Type :=
| AttributeError
| ValueError
| GymError.

Inductive result (A : Type) : Type :=
| Ok (a : A)
| Raise (e : pyexn).

Arguments Ok {A} a.
Arguments Raise {A} e.

Definition bind {A B : Type} (r : result A) (k : A -> result B) : result B :=
  match r with
  | Ok a => k a
  | Raise e => Raise e
  end.

Notation "x <- c ;; k" := (bind c (fun x => k))
  (at level 61, c at next level, right associativity).

(** ** The numpy operations used by [step]

    Arrays are one-dimensional and hold rationals: the finite values of a
    float are rationals, and the rounding, the overflow and the underflow
    of the subtraction and of the mean are not modelled, nor are entries
    that are [nan] or infinite.  [nan] is kept as a result, since the mean
    of an empty array is [nan].  What is stated of a reward below is its
    sign, its bounds on entries of the unit interval, and that the reward
    of an action equal to the state is zero: these hold of the floats as
    of the rationals. *)

Inductive npfloat : Type :=
| Fin (q : Q)
| NaN.

Definition Qsum (l : list Q) : Q := fold_right Qplus 0%Q l.

(** [a - b] on arrays of shape [(n,)] and [(m,)]: equal lengths are
    subtracted pointwise, a length of one is broadcast, anything else
    raises. *)
Fixpoint zip_sub (a b : list Q) : list Q :=
  match a, b with
  | x :: a', y :: b' => (x - y)%Q :: zip_sub a' b'
  | _, _ => []
  end.

Definition np_sub (a b : list Q) : result (list Q) :=
  if (length a =? length b)%nat then Ok (zip_sub a b)
  else match a, b with
       | [x], _ => Ok (map (fun y => (x - y)%Q) b)
       | _, [y] => Ok (map (fun x => (x - y)%Q) a)
       | _, _ => Raise ValueError
       end.

Definition np_abs (a : list Q) : list Q := map Qabs a.

Definition np_mean (a : list Q) : npfloat :=
  match a with
  | [] => NaN
  | _ :: _ => Fin (Qsum a / inject_Z (Z.of_nat (length a)))%Q
  end.

Definition np_neg (x : npfloat) : npfloat :=
  match x with
  | Fin q => Fin (- q)%Q
  | NaN => NaN
  end.

(** ** gym.spaces.Box, as far as the class uses it: the two bounds and the
    one-dimensional shape.  The element type is kept apart, below. *)

Record Box : Type := mkBox { low : Q; high : Q; shape : Z }.

(** The shape and the bounds of an array, the second and third test of
    [Box.contains]. *)
Definition Box_contains (b : Box) (x : list Q) : bool :=
  (Z.of_nat (length x) =? shape b)
  && forallb (fun v => Qle_bool (low b) v && Qle_bool v (high b)) x.

(** *** The element types

    [__init__] builds both spaces with [dtype=np.float32].  The arrays
    that [uniform] returns are of [np.float64], and [reset] and [step]
    store and return them as they are.  [Box.contains] of gym tests first
    that the element type of the array can be cast to the one of the
    space, [np.can_cast(x.dtype, self.dtype)], under numpy's rule of safe
    casts: a [float64] is not cast to [float32]. *)
Inductive dtype : Type :=
| float32
| float64.

Definition can_cast (from_ to : dtype) : bool :=
  match from_, to with
  | float64, float32 => false
  | _, _ => true
  end.

Definition space_dtype : dtype := float32.

Definition uniform_dtype : dtype := float64.

(** [space.contains(x)] for a space [b] of element type [b_dtype] and an
    array [x] of element type [x_dtype]. *)
Definition contains (b : Box) (b_dtype x_dtype : dtype) (x : list Q) : bool :=
  can_cast x_dtype b_dtype && Box_contains b x.

Definition in_unit_interval (x : Q) : Prop := (0 <= x)%Q /\ (x < 1)%Q.

(** ** ObservationMatchingEnv *)

Section ObservationMatchingEnv.

(** The generator object behind [self.np_random], its [uniform] method
    with the default bounds, and [gym.utils.seeding.np_random]: the last
    one reads the operating system's entropy when no seed is given, so
    that entropy is an explicit argument. *)
Variable rng : Type.
Variable uniform : rng -> nat -> list Q * rng.
Variable entropy : Type.
Variable seeding_np_random : entropy -> option Z -> result (rng * Z).

(** numpy's contract for [uniform(size=n)]: [n] samples of the half-open
    interval from 0 to 1. *)
Definition uniform_spec : Prop :=
  forall r n,
    length (fst (uniform r n)) = n /\
    Forall in_unit_interval (fst (uniform r n)).

(** gym's contract for [np_random(seed)] with a seed: the result is a
    function of the seed alone. *)
Definition np_random_seeded : Prop :=
  forall h1 h2 s,
    seeding_np_random h1 (Some s) = seeding_np_random h2 (Some s).

(** The attributes of an instance.  [state] is absent until the first
    [reset]. *)
Record Env : Type := mkEnv {
  num_options : Z;
  observation_space : Box;
  action_space : Box;
  np_random : rng;
  state : option (list Q)
}.

Definition info : Type := list (string * string).

(** [seed(self, seed=None)] *)
Definition seed_attrs (h : entropy) (sd : option Z) : result (rng * list Z) :=
  p <- seeding_np_random h sd ;;
  Ok (fst p, [snd p]).

Definition seed (h : entropy) (self : Env) (sd : option Z)
  : result (Env * list Z) :=
  p <- seed_attrs h sd ;;
  Ok (mkEnv (num_options self) (observation_space self) (action_space self)
            (fst p) (state self),
      snd p).

(** [Box(0, 1, shape=(num_options,), dtype=np.float32)]: numpy refuses a
    negative dimension. *)
Definition new_Box (lo hi : Q) (n : Z) : result Box :=
  if n <? 0 then Raise ValueError else Ok (mkBox lo hi n).

(** [__init__(self, num_options: int = 2)] *)
Definition init (h : entropy) (n : Z) : result Env :=
  obs <- new_Box 0 1 n ;;
  act <- new_Box 0 1 n ;;
  p <- seed_attrs h None ;;
  Ok (mkEnv n obs act (fst p) None).

(** [self.np_random.uniform(size=self.num_options)]: numpy refuses a
    negative size. *)
Definition draw (self : Env) : result (list Q * rng) :=
  if num_options self <? 0 then Raise ValueError
  else Ok (uniform (np_random self) (Z.to_nat (num_options self))).

(** [reset(self)] *)
Definition reset (self : Env) : result (Env * list Q) :=
  d <- draw self ;;
  Ok (mkEnv (num_options self) (observation_space self) (action_space self)
            (snd d) (Some (fst d)),
      fst d).

(** [step(self, action)] *)
Definition step (self : Env) (action : list Q)
  : result (Env * (list Q * npfloat * bool * info)) :=
  match state self with
  | None => Raise AttributeError
  | Some s =>
      diff <- np_sub s action ;;
      let reward := np_neg (np_mean (np_abs diff)) in
      d <- draw self ;;
      Ok (mkEnv (num_options self) (observation_space self)
                (action_space self) (snd d) (Some (fst d)),
          (fst d, reward, false, []))
  end.

(** *** Driving an instance *)

Inductive call : Type :=
| CSeed (h : entropy) (sd : option Z)
| CReset
| CStep (action : list Q).

Inductive output : Type :=
| OSeed (seeds : list Z)
| OReset (obs : list Q)
| OStep (ret : list Q * npfloat * bool * info)
| ORaise (e : pyexn).

(** A call that raises leaves the object as it was: [seed], [reset] and
    [step] raise before their first assignment to [self]. *)
Definition do_call (self : Env) (c : call) : Env * output :=
  match c with
  | CSeed h sd =>
      match seed h self sd with
      | Ok (self', l) => (self', OSeed l)
      | Raise e => (self, ORaise e)
      end
  | CReset =>
      match reset self with
      | Ok (self', obs) => (self', OReset obs)
      | Raise e => (self, ORaise e)
      end
  | CStep a =>
      match step self a with
      | Ok (self', ret) => (self', OStep ret)
      | Raise e => (self, ORaise e)
      end
  end.

Fixpoint run (self : Env) (cs : list call) : Env * list output :=
  match cs with
  | [] => (self, [])
  | c :: cs' =>
      let (self1, o) := do_call self c in
      let (self2, os) := run self1 cs' in
      (self2, o :: os)
  end.

Definition observation_of (o : output) : option (list Q) :=
  match o with
  | OReset obs => Some obs
  | OStep (obs, _, _, _) => Some obs
  | _ => None
  end.

Definition done_of (o : output) : option bool :=
  match o with
  | OStep (_, _, d, _) => Some d
  | _ => None
  end.

Fixpoint observations (os : list output) : list (list Q) :=
  match os with
  | [] => []
  | o :: os' =>
      match observation_of o with
      | Some obs => obs :: observations os'
      | None => observations os'
      end
  end.

Definition is_reset_or_step (c : call) : bool :=
  match c with
  | CSeed _ _ => false
  | _ => true
  end.

(** What the class promises about [state] once it is set. *)
Definition state_ok (self : Env) : Prop :=
  match state self with
  | None => True
  | Some v =>
      length v = Z.to_nat (num_options self) /\ Forall in_unit_interval v
  end.

(** The invariant of an instance built with [num_options = n]. *)
Definition env_inv (n : Z) (self : Env) : Prop :=
  num_options self = n /\ 0 <= n /\
  observation_space self = mkBox 0 1 n /\ state_ok self.

End ObservationMatchingEnv.

Arguments mkEnv {rng} _ _ _ _ _.
Arguments num_options {rng} _.
Arguments observation_space {rng} _.
Arguments action_space {rng} _.
Arguments np_random {rng} _.
Arguments state {rng} _.
Arguments seed_attrs {rng entropy} _ _ _.
Arguments seed {rng entropy} _ _ _ _.
Arguments init {rng entropy} _ _ _.
Arguments draw {rng} _ _.
Arguments reset {rng} _ _.
Arguments step {rng} _ _ _.
Arguments CSeed {entropy} _ _.
Arguments CReset {entropy}.
Arguments CStep {entropy} _.
Arguments do_call {rng} _ {entropy} _ _ _.
Arguments run {rng} _ {entropy} _ _ _.
Arguments is_reset_or_step {entropy} _.
Arguments state_ok {rng} _.
Arguments env_inv {rng} _ _.
Arguments uniform_spec {rng} _.
Arguments np_random_seeded {rng entropy} _.

(** ** Reading a run of the environment *)

(** The shapes [(n,)] and [(m,)] that numpy broadcasts against each
    other. *)
Definition broadcastable (n m : nat) : bool :=
  (n =? m)%nat || (n =? 1)%nat || (m =? 1)%nat.

(** The reward that [step] returns, or the exception it raises. *)
Definition step_reward {rng : Type} (uniform : rng -> nat -> list Q * rng)
    (self : Env rng) (action : list Q) : result npfloat :=
  match step uniform self action with
  | Ok (_, (_, r, _, _)) => Ok r
  | Raise e => Raise e
  end.

(** A call without the action it carries, and whether its action
    broadcasts against a state of [n] entries. *)
Definition forget_action {entropy : Type} (c : call entropy) : call entropy :=
  match c with
  | CStep _ => CStep []
  | _ => c
  end.

Definition accepted {entropy : Type} (n : nat) (c : call entropy) : bool :=
  match c with
  | CStep a => broadcastable n (length a)
  | _ => true
  end.

Definition is_reset {entropy : Type} (c : call entropy) : bool :=
  match c with
  | CReset => true
  | _ => false
  end.

(** An action of the unit box: entries from 0 to 1, both included. *)
Definition in_unit_box (x : Q) : Prop := (0 <= x)%Q /\ (x <= 1)%Q.

(** ** The tutorial scripts as syntax

    The code cells of the notebooks and the [testcode] block of the AIRL
    page are kept as syntax trees, with the node names of Python's [ast]
    module.  The grammar has the nodes the scripts use and the ones whose
    absence is a property of the scripts ([Try], [With],
    [AsyncFunctionDef], [Await]). *)

Module Py.

Inductive constant : Type :=
| CInt (z : Z)
| CFloat (literal : string)
| CStr (s : string)
| CBool (b : bool)
| CNone.

Inductive operator : Type := Add | Sub | Mult | Div.

Inductive unaryop : Type := USub | UAdd | Not.

Inductive expr : Type :=
| Name (id : string)
| Constant (value : constant)
| Attribute (value : expr) (attr : string)
| Subscript (value : expr) (slice : expr)
| Call (func : expr) (args : list expr) (keywords : list (string * expr))
| Lambda (params : list string) (body : expr)
| List_ (elts : list expr)
| Tuple_ (elts : list expr)
| Dict_ (items : list (expr * expr))
| ListComp (elt : expr) (target : string) (iter : expr)
| JoinedStr (values : list expr)
| FormattedValue (value : expr)
| BinOp (left : expr) (op : operator) (right : expr)
| UnaryOp (op : unaryop) (operand : expr)
| Await (value : expr).

(** A parameter: its name, its annotation and its default. *)
Definition param : Type := (string * option expr * option expr)%type.

Inductive stmt : Type :=
| Import (name : string) (asname : option string)
| ImportFrom (module : string) (names : list string)
| Assign (target : expr) (value : expr)
| Expr (value : expr)
| Return (value : expr)
| FunctionDef (name : string) (params : list param) (body : list stmt)
| AsyncFunctionDef (name : string) (params : list param) (body : list stmt)
| ClassDef (name : string) (bases : list expr) (body : list stmt)
| Try (body : list stmt) (handlers : list (option expr * list stmt))
      (orelse : list stmt) (finalbody : list stmt)
| With (items : list expr) (body : list stmt).

(** A script: its code cells in order. *)
Definition cell : Type := list stmt.
Definition script : Type := list cell.

Definition statements (s : script) : list stmt := concat s.

(** Induction over the nested lists. *)
Section expr_rect_nested.
Variable P : expr -> Prop.
Hypothesis HName : forall id, P (Name id).
Hypothesis HConstant : forall c, P (Constant c).
Hypothesis HAttribute : forall v a, P v -> P (Attribute v a).
Hypothesis HSubscript : forall v s, P v -> P s -> P (Subscript v s).
Hypothesis HCall : forall f args kws,
    P f -> Forall P args -> Forall (fun kw => P (snd kw)) kws ->
    P (Call f args kws).
Hypothesis HLambda : forall ps b, P b -> P (Lambda ps b).
Hypothesis HList : forall es, Forall P es -> P (List_ es).
Hypothesis HTuple : forall es, Forall P es -> P (Tuple_ es).
Hypothesis HDict : forall items,
    Forall (fun kv => P (fst kv) /\ P (snd kv)) items -> P (Dict_ items).
Hypothesis HListComp : forall e t i, P e -> P i -> P (ListComp e t i).
Hypothesis HJoinedStr : forall vs, Forall P vs -> P (JoinedStr vs).
Hypothesis HFormattedValue : forall v, P v -> P (FormattedValue v).
Hypothesis HBinOp : forall l o r, P l -> P r -> P (BinOp l o r).
Hypothesis HUnaryOp : forall o v, P v -> P (UnaryOp o v).
Hypothesis HAwait : forall v, P v -> P (Await v).

Fixpoint expr_nested_ind (e : expr) : P e :=
  let all :=
    fix all (l : list expr) : Forall P l :=
      match l with
      | [] => Forall_nil P
      | x :: t => Forall_cons x (expr_nested_ind x) (all t)
      end in
  match e with
  | Name id => HName id
  | Constant c => HConstant c
  | Attribute v a => HAttribute v a (expr_nested_ind v)
  | Subscript v s => HSubscript v s (expr_nested_ind v) (expr_nested_ind s)
  | Call f args kws =>
      HCall f args kws (expr_nested_ind f) (all args)
        ((fix allk (l : list (string * expr))
            : Forall (fun kw => P (snd kw)) l :=
            match l with
            | [] => Forall_nil _
            | (k, x) :: t =>
                Forall_cons (P := fun kw => P (snd kw)) (k, x)
                  (expr_nested_ind x) (allk t)
            end) kws)
  | Lambda ps b => HLambda ps b (expr_nested_ind b)
  | List_ es => HList es (all es)
  | Tuple_ es => HTuple es (all es)
  | Dict_ items =>
      HDict items
        ((fix alld (l : list (expr * expr))
            : Forall (fun kv => P (fst kv) /\ P (snd kv)) l :=
            match l with
            | [] => Forall_nil _
            | (k, x) :: t =>
                Forall_cons (P := fun kv => P (fst kv) /\ P (snd kv)) (k, x)
                  (conj (expr_nested_ind k) (expr_nested_ind x)) (alld t)
            end) items)
  | ListComp e t i => HListComp e t i (expr_nested_ind e) (expr_nested_ind i)
  | JoinedStr vs => HJoinedStr vs (all vs)
  | FormattedValue v => HFormattedValue v (expr_nested_ind v)
  | BinOp l o r => HBinOp l o r (expr_nested_ind l) (expr_nested_ind r)
  | UnaryOp o v => HUnaryOp o v (expr_nested_ind v)
  | Await v => HAwait v (expr_nested_ind v)
  end.
End expr_rect_nested.

Section stmt_rect_nested.
Variable P : stmt -> Prop.
Hypothesis HImport : forall n a, P (Import n a).
Hypothesis HImportFrom : forall m ns, P (ImportFrom m ns).
Hypothesis HAssign : forall t v, P (Assign t v).
Hypothesis HExpr : forall v, P (Expr v).
Hypothesis HReturn : forall v, P (Return v).
Hypothesis HFunctionDef : forall n ps b, Forall P b -> P (FunctionDef n ps b).
Hypothesis HAsyncFunctionDef :
  forall n ps b, Forall P b -> P (AsyncFunctionDef n ps b).
Hypothesis HClassDef : forall n bs b, Forall P b -> P (ClassDef n bs b).
Hypothesis HTry : forall b hs o f,
    Forall P b -> Forall (fun h => Forall P (snd h)) hs ->
    Forall P o -> Forall P f -> P (Try b hs o f).
Hypothesis HWith : forall its b, Forall P b -> P (With its b).

Fixpoint stmt_nested_ind (s : stmt) : P s :=
  let all :=
    fix all (l : list stmt) : Forall P l :=
      match l with
      | [] => Forall_nil P
      | x :: t => Forall_cons x (stmt_nested_ind x) (all t)
      end in
  match s with
  | Import n a => HImport n a
  | ImportFrom m ns => HImportFrom m ns
  | Assign t v => HAssign t v
  | Expr v => HExpr v
  | Return v => HReturn v
  | FunctionDef n ps b => HFunctionDef n ps b (all b)
  | AsyncFunctionDef n ps b => HAsyncFunctionDef n ps b (all b)
  | ClassDef n bs b => HClassDef n bs b (all b)
  | Try b hs o f =>
      HTry b hs o f (all b)
        ((fix allh (l : list (option expr * list stmt))
            : Forall (fun h => Forall P (snd h)) l :=
            match l with
            | [] => Forall_nil _
            | (ty, hb) :: t =>
                Forall_cons (P := fun h => Forall P (snd h)) (ty, hb)
                  (all hb) (allh t)
            end) hs)
        (all o) (all f)
  | With its b => HWith its b (all b)
  end.
End stmt_rect_nested.

(** *** Running a script

    The script is straight-line code around operations that run code of
    the libraries: imports, calls, attribute loads, subscripts, operators
    and string formatting.  The [world] says which of these operations
    raise, by the number of operations performed before, and how many
    items an iterable yields; a computation threads the number of
    operations performed and ends normally or with an exception. *)

Record world : Type := mkWorld {
  raises : nat -> option string;
  iter_len : nat -> nat
}.

Inductive outcome : Type :=
| Normal
| Raised (exc : string).

Definition comp : Type := nat -> nat * outcome.

Definition skip : comp := fun n => (n, Normal).

Definition throw (exc : string) : comp := fun n => (n, Raised exc).

Definition seq (c1 c2 : comp) : comp :=
  fun n =>
    match c1 n with
    | (n1, Normal) => c2 n1
    | (n1, Raised exc) => (n1, Raised exc)
    end.

Definition seq_all (cs : list comp) : comp := fold_right seq skip cs.

Fixpoint times (k : nat) (c : comp) : comp :=
  match k with
  | O => skip
  | S k' => seq c (times k' c)
  end.

(** [c] and then [final] on both paths: the outcome of [c] stands unless
    [final] raises itself. *)
Definition finally (c final : comp) : comp :=
  fun n =>
    match c n with
    | (n1, r) =>
        match final n1 with
        | (n2, Normal) => (n2, r)
        | (n2, Raised exc) => (n2, Raised exc)
        end
    end.

(** An [except] clause without a type, or with [Exception] or
    [BaseException], takes every exception; a clause with another name
    takes the exception of that name. *)
Definition handles (exc : string) (ty : option expr) : bool :=
  match ty with
  | None => true
  | Some (Name t) =>
      String.eqb t exc || String.eqb t "Exception"
      || String.eqb t "BaseException"
  | Some _ => false
  end.

Fixpoint dispatch (exc : string) (hs : list (option expr * comp)) : comp :=
  match hs with
  | [] => throw exc
  | (ty, c) :: hs' => if handles exc ty then c else dispatch exc hs'
  end.

Definition try_ (body : comp) (hs : list (option expr * comp))
    (orelse final : comp) : comp :=
  finally
    (fun n =>
       match body n with
       | (n1, Normal) => orelse n1
       | (n1, Raised exc) => dispatch exc hs n1
       end)
    final.

(** The world in which no operation raises and every iterable yields [k]
    items, and the one in which only the operation number [i] raises. *)
Definition calm (k : nat) : world := mkWorld (fun _ => None) (fun _ => k).

Definition failing_at (i : nat) (exc : string) : world :=
  mkWorld (fun n => if Nat.eqb n i then Some exc else None) (fun _ => 4%nat).

Section Run.
Variable w : world.

Definition tick : comp :=
  fun n =>
    (S n, match raises w n with
          | None => Normal
          | Some exc => Raised exc
          end).

Fixpoint eval (e : expr) : comp :=
  match e with
  | Name _ => skip
  | Constant _ => skip
  | Attribute v _ => seq (eval v) tick
  | Subscript v s => seq (eval v) (seq (eval s) tick)
  | Call f args kws =>
      seq (eval f)
        (seq (seq_all (map eval args))
           (seq (seq_all (map (fun kw => eval (snd kw)) kws)) tick))
  | Lambda _ _ => skip
  | List_ es => seq_all (map eval es)
  | Tuple_ es => seq_all (map eval es)
  | Dict_ items =>
      seq_all (map (fun kv => seq (eval (fst kv)) (eval (snd kv))) items)
  | ListComp elt _ it =>
      seq (eval it) (fun n => times (iter_len w n) (eval elt) n)
  | JoinedStr vs => seq_all (map eval vs)
  | FormattedValue v => seq (eval v) tick
  | BinOp l _ r => seq (eval l) (seq (eval r) tick)
  | UnaryOp _ v => seq (eval v) tick
  | Await v => seq (eval v) tick
  end.

(** Storing into a target: a name is bound by the interpreter, an
    attribute or an item is set through the object. *)
Fixpoint store (t : expr) : comp :=
  match t with
  | Attribute v _ => seq (eval v) tick
  | Subscript v s => seq (eval v) (seq (eval s) tick)
  | Tuple_ es => seq_all (map store es)
  | List_ es => seq_all (map store es)
  | _ => skip
  end.

Definition eval_defaults (ps : list param) : comp :=
  seq_all (map (fun p => match snd p with
                         | Some d => eval d
                         | None => skip
                         end) ps).

(** A [def] evaluates the defaults and binds the name: the body runs
    when a library calls the function back, inside that library's
    operation.  A [class] statement evaluates its bases and runs its
    body.  [Return] has a meaning inside a body only. *)
Fixpoint exec (s : stmt) : comp :=
  match s with
  | Import _ _ => tick
  | ImportFrom _ _ => tick
  | Assign t v => seq (eval v) (store t)
  | Expr v => eval v
  | Return v => eval v
  | FunctionDef _ ps _ => eval_defaults ps
  | AsyncFunctionDef _ ps _ => eval_defaults ps
  | ClassDef _ bases body =>
      seq (seq_all (map eval bases)) (seq_all (map exec body))
  | Try body hs orelse final =>
      try_ (seq_all (map exec body))
        (map (fun h => (fst h, seq_all (map exec (snd h)))) hs)
        (seq_all (map exec orelse))
        (seq_all (map exec final))
  | With items body =>
      seq (seq_all (map eval items))
        (seq tick (finally (seq_all (map exec body)) tick))
  end.

Definition run_script (s : script) : nat * outcome :=
  seq_all (map exec (statements s)) O.

(** No operation between [a] and [b] raises. *)
Definition quiet (a b : nat) : Prop :=
  forall i, (a <= i < b)%nat -> raises w i = None.

(** What a computation without handlers does from [a] on: it ends
    normally after operations that did not raise, or it ends with the
    exception of the first operation that raised, which is the last
    operation it performed. *)
Definition post (a : nat) (res : nat * outcome) : Prop :=
  match res with
  | (b, Normal) => (a <= b)%nat /\ quiet a b
  | (b, Raised exc) =>
      exists k, b = S k /\ (a <= k)%nat /\ quiet a k /\
                raises w k = Some exc
  end.

Definition propagates (c : comp) : Prop := forall a, post a (c a).

End Run.

(** The statements that a run completes, from the operation count [n]
    on: the run stops at the first statement that raises. *)
Fixpoint completed (w : world) (l : list stmt) (n : nat) : list stmt :=
  match l with
  | [] => []
  | s :: t =>
      match exec w s n with
      | (n1, Normal) => s :: completed w t n1
      | (_, Raised _) => []
      end
  end.

(** *** Constructs that take part in error handling *)

Fixpoint handlers_in (s : stmt) : nat :=
  let sum := fun l => fold_right Nat.add O (map handlers_in l) in
  match s with
  | FunctionDef _ _ b => sum b
  | AsyncFunctionDef _ _ b => sum b
  | ClassDef _ _ b => sum b
  | Try b hs o f =>
      S (sum b + fold_right Nat.add O (map (fun h => sum (snd h)) hs)
         + sum o + sum f)
  | With _ b => S (sum b)
  | _ => O
  end.

Definition handler_free (s : stmt) : bool := Nat.eqb (handlers_in s) O.

Definition script_handler_free (s : script) : bool :=
  forallb handler_free (statements s).

End Py.

(** ** The four scripts *)

Module Tutorials.
Import Py.
Open Scope string_scope.

Definition str (s : string) : expr := Constant (CStr s).
Definition int (z : Z) : expr := Constant (CInt z).
Definition float (literal : string) : expr := Constant (CFloat literal).
Definition none : expr := Constant CNone.
Definition call0 (f : expr) (args : list expr) : expr := Call f args [].

(** [np.random.default_rng(...)] *)
Definition default_rng (args : list expr) : expr :=
  call0 (Attribute (Attribute (Name "np") "random") "default_rng") args.

(** [lambda env, _: RolloutInfoWrapper(env)] *)
Definition rollout_info_wrapper_lambda : expr :=
  Lambda ["env"; "_"] (call0 (Name "RolloutInfoWrapper") [Name "env"]).

(** [x, _ = evaluate_policy(policy, env, n, ...)] *)
Definition evaluate_into (x : string) (policy env : expr) (n : Z)
    (kws : list (string * expr)) : stmt :=
  Assign (Tuple_ [Name x; Name "_"])
         (Call (Name "evaluate_policy") [policy; env; int n] kws).

Definition print_ (args : list expr) : stmt :=
  Expr (call0 (Name "print") args).

(** [print(f"<label>{x}")] *)
Definition print_labelled (label x : string) : stmt :=
  print_ [JoinedStr [str label; FormattedValue (Name x)]].

(** *** The AIRL page of the documentation (src/unnamed/part_000), its
    [testcode] block *)

Definition airl_doc : script :=
  [[ Import "numpy" (Some "np");
     Import "seals" None;
     ImportFrom "stable_baselines3" ["PPO"];
     ImportFrom "stable_baselines3.common.evaluation" ["evaluate_policy"];
     ImportFrom "stable_baselines3.ppo" ["MlpPolicy"];
     ImportFrom "imitation.algorithms.adversarial.airl" ["AIRL"];
     ImportFrom "imitation.data" ["rollout"];
     ImportFrom "imitation.data.wrappers" ["RolloutInfoWrapper"];
     ImportFrom "imitation.policies.serialize" ["load_policy"];
     ImportFrom "imitation.rewards.reward_nets" ["BasicShapedRewardNet"];
     ImportFrom "imitation.util.networks" ["RunningNorm"];
     ImportFrom "imitation.util.util" ["make_vec_env"];
     Assign (Name "SEED") (int 42);
     Assign (Name "env")
       (Call (Name "make_vec_env") [str "seals/CartPole-v0"]
          [("rng", default_rng [Name "SEED"]);
           ("n_envs", int 8);
           ("post_wrappers", List_ [rollout_info_wrapper_lambda])]);
     Assign (Name "expert")
       (Call (Name "load_policy") [str "ppo-huggingface"]
          [("organization", str "HumanCompatibleAI");
           ("env_name", str "seals-CartPole-v0");
           ("venv", Name "env")]);
     Assign (Name "rollouts")
       (Call (Attribute (Name "rollout") "rollout")
          [Name "expert"; Name "env";
           Call (Attribute (Name "rollout") "make_sample_until") []
             [("min_episodes", int 60)]]
          [("rng", default_rng [Name "SEED"])]);
     Assign (Name "learner")
       (Call (Name "PPO") []
          [("env", Name "env");
           ("policy", Name "MlpPolicy");
           ("batch_size", int 16);
           ("learning_rate", float "0.0001");
           ("n_epochs", int 2);
           ("seed", Name "SEED")]);
     Assign (Name "reward_net")
       (Call (Name "BasicShapedRewardNet") []
          [("observation_space", Attribute (Name "env") "observation_space");
           ("action_space", Attribute (Name "env") "action_space");
           ("normalize_input_layer", Name "RunningNorm")]);
     Assign (Name "airl_trainer")
       (Call (Name "AIRL") []
          [("demonstrations", Name "rollouts");
           ("demo_batch_size", int 1024);
           ("gen_replay_buffer_capacity", int 2048);
           ("n_disc_updates_per_round", int 4);
           ("venv", Name "env");
           ("gen_algo", Name "learner");
           ("reward_net", Name "reward_net")]);
     Expr (call0 (Attribute (Name "env") "seed") [Name "SEED"]);
     evaluate_into "learner_rewards_before_training"
       (Name "learner") (Name "env") 100
       [("return_episode_rewards", Constant (CBool true))];
     Expr (call0 (Attribute (Name "airl_trainer") "train") [int 20000]);
     Expr (call0 (Attribute (Name "env") "seed") [Name "SEED"]);
     evaluate_into "learner_rewards_after_training"
       (Name "learner") (Name "env") 100
       [("return_episode_rewards", Constant (CBool true))];
     print_ [str "mean reward after training:";
             call0 (Attribute (Name "np") "mean")
               [Name "learner_rewards_after_training"]];
     print_ [str "mean reward before training:";
             call0 (Attribute (Name "np") "mean")
               [Name "learner_rewards_before_training"]]
  ]].

(** *** The notebook 4_train_airl.ipynb (src/unnamed/part_001) *)

Definition airl_notebook : script :=
  [ [ Import "numpy" (Some "np");
      Import "seals" None;
      ImportFrom "imitation.policies.serialize" ["load_policy"];
      ImportFrom "imitation.util.util" ["make_vec_env"];
      ImportFrom "imitation.data.wrappers" ["RolloutInfoWrapper"];
      Assign (Name "SEED") (int 42);
      Assign (Name "env")
        (Call (Name "make_vec_env") [str "seals/CartPole-v0"]
           [("rng", default_rng [Name "SEED"]);
            ("n_envs", int 8);
            ("post_wrappers", List_ [rollout_info_wrapper_lambda])]);
      Assign (Name "expert")
        (Call (Name "load_policy") [str "ppo-huggingface"]
           [("organization", str "HumanCompatibleAI");
            ("env_name", str "seals-CartPole-v0");
            ("venv", Name "env")]) ];
    [ ImportFrom "imitation.data" ["rollout"];
      Assign (Name "rollouts")
        (Call (Attribute (Name "rollout") "rollout")
           [Name "expert"; Name "env";
            Call (Attribute (Name "rollout") "make_sample_until") []
              [("min_timesteps", none); ("min_episodes", int 60)]]
           [("rng", default_rng [Name "SEED"])]) ];
    [ ImportFrom "imitation.algorithms.adversarial.airl" ["AIRL"];
      ImportFrom "imitation.rewards.reward_nets" ["BasicShapedRewardNet"];
      ImportFrom "imitation.util.networks" ["RunningNorm"];
      ImportFrom "stable_baselines3" ["PPO"];
      ImportFrom "stable_baselines3.ppo" ["MlpPolicy"];
      ImportFrom "stable_baselines3.common.evaluation" ["evaluate_policy"];
      Assign (Name "learner")
        (Call (Name "PPO") []
           [("env", Name "env");
            ("policy", Name "MlpPolicy");
            ("batch_size", int 16);
            ("ent_coef", float "0.0");
            ("learning_rate", float "0.0001");
            ("n_epochs", int 2);
            ("seed", Name "SEED")]);
      Assign (Name "reward_net")
        (Call (Name "BasicShapedRewardNet") []
           [("observation_space", Attribute (Name "env") "observation_space");
            ("action_space", Attribute (Name "env") "action_space");
            ("normalize_input_layer", Name "RunningNorm")]);
      Assign (Name "airl_trainer")
        (Call (Name "AIRL") []
           [("demonstrations", Name "rollouts");
            ("demo_batch_size", int 1024);
            ("gen_replay_buffer_capacity", int 2048);
            ("n_disc_updates_per_round", int 4);
            ("venv", Name "env");
            ("gen_algo", Name "learner");
            ("reward_net", Name "reward_net")]);
      Expr (call0 (Attribute (Name "env") "seed") [Name "SEED"]);
      evaluate_into "learner_rewards_before_training"
        (Name "learner") (Name "env") 100
        [("return_episode_rewards", Constant (CBool true))];
      Expr (call0 (Attribute (Name "airl_trainer") "train") [int 20000]);
      Expr (call0 (Attribute (Name "env") "seed") [Name "SEED"]);
      evaluate_into "learner_rewards_after_training"
        (Name "learner") (Name "env") 100
        [("return_episode_rewards", Constant (CBool true))] ];
    [ Import "matplotlib.pyplot" (Some "plt");
      print_ [str "mean reward after training:";
              call0 (Attribute (Name "np") "mean")
                [Name "learner_rewards_after_training"]];
      print_ [str "mean reward before training:";
              call0 (Attribute (Name "np") "mean")
                [Name "learner_rewards_before_training"]];
      Expr (Call (Attribute (Name "plt") "hist")
              [List_ [Name "learner_rewards_before_training";
                      Name "learner_rewards_after_training"]]
              [("label", List_ [str "untrained"; str "trained"])]);
      Expr (call0 (Attribute (Name "plt") "legend") []);
      Expr (call0 (Attribute (Name "plt") "show") []) ] ].

(** *** docs/tutorials/8_train_sqil.ipynb *)

Definition stats_item (key : string) : expr :=
  FormattedValue (Subscript (Name "trajectory_stats") (str key)).

Definition sqil_notebook : script :=
  [ [ Import "datasets" None;
      ImportFrom "stable_baselines3.common.vec_env" ["DummyVecEnv"];
      ImportFrom "imitation.data" ["huggingface_utils"];
      Assign (Name "dataset")
        (call0 (Attribute (Name "datasets") "load_dataset")
           [str "HumanCompatibleAI/ppo-CartPole-v1"]);
      Assign (Name "expert_trajectories")
        (call0 (Attribute (Name "huggingface_utils")
                  "TrajectoryDatasetSequence")
           [Subscript (Name "dataset") (str "train")]) ];
    [ ImportFrom "imitation.data" ["rollout"];
      Assign (Name "trajectory_stats")
        (call0 (Attribute (Name "rollout") "rollout_stats")
           [Name "expert_trajectories"]);
      print_ [JoinedStr
                [str "We have ";
                 stats_item "n_traj";
                 str " trajectories.The average length of each trajectory is ";
                 stats_item "len_mean";
                 str ".The average return of each trajectory is ";
                 stats_item "return_mean";
                 str "."]] ];
    [ ImportFrom "imitation.algorithms" ["sqil"];
      Import "gym" None;
      Assign (Name "venv")
        (call0 (Name "DummyVecEnv")
           [List_ [Lambda []
                     (call0 (Attribute (Name "gym") "make")
                        [str "CartPole-v1"])]]);
      Assign (Name "sqil_trainer")
        (Call (Attribute (Name "sqil") "SQIL") []
           [("venv", Name "venv");
            ("demonstrations", Name "expert_trajectories");
            ("policy", str "MlpPolicy")]) ];
    [ ImportFrom "stable_baselines3.common.evaluation" ["evaluate_policy"];
      evaluate_into "reward_before_training"
        (Attribute (Name "sqil_trainer") "policy") (Name "venv") 10 [];
      print_labelled "Reward before training: " "reward_before_training" ];
    [ Expr (Call (Attribute (Name "sqil_trainer") "train") []
              [("total_timesteps", int 1000)]);
      evaluate_into "reward_after_training"
        (Attribute (Name "sqil_trainer") "policy") (Name "venv") 10 [];
      print_labelled "Reward after training: " "reward_after_training" ] ].

(** *** docs/tutorials/10_train_custom_env.ipynb *)

Definition self_ (attr : string) : expr := Attribute (Name "self") attr.

(** [Box(0, 1, shape=(num_options,), dtype=np.float32)] *)
Definition unit_box : expr :=
  Call (Name "Box") [int 0; int 1]
    [("shape", Tuple_ [Name "num_options"]);
     ("dtype", Attribute (Name "np") "float32")].

(** [self.np_random.uniform(size=self.num_options)] *)
Definition draw_state : expr :=
  Call (Attribute (self_ "np_random") "uniform") []
    [("size", self_ "num_options")].

Definition ObservationMatchingEnv_def : stmt :=
  ClassDef "ObservationMatchingEnv" [Attribute (Name "gym") "Env"]
    [ FunctionDef "__init__"
        [("self", None, None);
         ("num_options", Some (Name "int"), Some (int 2))]
        [ Assign (self_ "num_options") (Name "num_options");
          Assign (self_ "observation_space") unit_box;
          Assign (self_ "action_space") unit_box;
          Expr (call0 (self_ "seed") []) ];
      FunctionDef "seed"
        [("self", None, None); ("seed", None, Some none)]
        [ Assign (Tuple_ [self_ "np_random"; Name "seed"])
            (call0 (Attribute (Name "seeding") "np_random") [Name "seed"]);
          Return (List_ [Name "seed"]) ];
      FunctionDef "reset"
        [("self", None, None)]
        [ Assign (self_ "state") draw_state;
          Return (self_ "state") ];
      FunctionDef "step"
        [("self", None, None); ("action", None, None)]
        [ Assign (Name "reward")
            (UnaryOp USub
               (call0
                  (Attribute
                     (call0 (Attribute (Name "np") "abs")
                        [BinOp (self_ "state") Sub (Name "action")])
                     "mean")
                  []));
          Assign (self_ "state") draw_state;
          Return (Tuple_ [self_ "state"; Name "reward";
                          Constant (CBool false); Dict_ []]) ] ].

(** [TimeLimit(e, max_episode_steps=500)] *)
Definition time_limit (e : expr) : expr :=
  Call (Name "TimeLimit") [e] [("max_episode_steps", int 500)].

Definition make_env_def : stmt :=
  FunctionDef "_make_env" []
    [ Expr (str "Helper function to create a single environment. Put any logic here, but make sure to return a RolloutInfoWrapper.");
      Assign (Name "_env") (call0 (Name "ObservationMatchingEnv") []);
      Assign (Name "_env") (time_limit (Name "_env"));
      Assign (Name "_env") (call0 (Name "RolloutInfoWrapper") [Name "_env"]);
      Return (Name "_env") ].

Definition custom_env_notebook : script :=
  [ [ Import "numpy" (Some "np");
      Import "gym" None;
      ImportFrom "gym.spaces" ["Box"];
      ImportFrom "gym.utils" ["seeding"];
      ObservationMatchingEnv_def ];
    [ Expr (Call (Attribute (Name "gym") "register") []
              [("id", str "custom/ObservationMatching-v0");
               ("entry_point", Name "ObservationMatchingEnv");
               ("max_episode_steps", int 500)]) ];
    [ ImportFrom "gym.wrappers" ["TimeLimit"];
      ImportFrom "imitation.data" ["rollout"];
      ImportFrom "imitation.data.wrappers" ["RolloutInfoWrapper"];
      ImportFrom "imitation.util.util" ["make_vec_env"];
      ImportFrom "stable_baselines3.common.vec_env"
        ["DummyVecEnv"; "SubprocVecEnv"];
      Assign (Name "env")
        (call0 (Attribute (Name "gym") "make")
           [str "custom/ObservationMatching-v0"]);
      Assign (Name "venv")
        (Call (Name "make_vec_env") [str "custom/ObservationMatching-v0"]
           [("rng", default_rng []);
            ("n_envs", int 4);
            ("post_wrappers", List_ [rollout_info_wrapper_lambda])]) ];
    [ ImportFrom "gym.wrappers" ["TimeLimit"];
      ImportFrom "imitation.data" ["rollout"];
      ImportFrom "imitation.data.wrappers" ["RolloutInfoWrapper"];
      ImportFrom "stable_baselines3.common.vec_env" ["DummyVecEnv"];
      Import "numpy" (Some "np");
      Assign (Name "env") (call0 (Name "ObservationMatchingEnv") []);
      Assign (Name "env") (time_limit (Name "env"));
      make_env_def;
      Assign (Name "venv")
        (call0 (Name "DummyVecEnv")
           [ListComp (Name "_make_env") "_"
              (call0 (Name "range") [int 4])]) ];
    [ ImportFrom "stable_baselines3" ["PPO"];
      ImportFrom "stable_baselines3.ppo" ["MlpPolicy"];
      ImportFrom "stable_baselines3.common.evaluation" ["evaluate_policy"];
      ImportFrom "gym.wrappers" ["TimeLimit"];
      Assign (Name "expert")
        (Call (Name "PPO") []
           [("policy", Name "MlpPolicy");
            ("env", Name "env");
            ("seed", int 0);
            ("batch_size", int 64);
            ("ent_coef", float "0.0");
            ("learning_rate", float "0.0003");
            ("n_epochs", int 10);
            ("n_steps", int 64)]);
      evaluate_into "reward" (Name "expert") (Name "env") 10 [];
      print_labelled "Reward before training: " "reward";
      Expr (call0 (Attribute (Name "expert") "learn") [int 10000]);
      evaluate_into "reward" (Name "expert") (Name "env") 10 [];
      print_labelled "Expert reward: " "reward" ];
    [ Assign (Name "rng") (default_rng []);
      Assign (Name "rollouts")
        (Call (Attribute (Name "rollout") "rollout")
           [Name "expert"; Name "venv";
            Call (Attribute (Name "rollout") "make_sample_until") []
              [("min_timesteps", none); ("min_episodes", int 50)]]
           [("rng", Name "rng")]);
      Assign (Name "transitions")
        (call0 (Attribute (Name "rollout") "flatten_trajectories")
           [Name "rollouts"]) ];
    [ ImportFrom "imitation.algorithms" ["bc"];
      Assign (Name "bc_trainer")
        (Call (Attribute (Name "bc") "BC") []
           [("observation_space", Attribute (Name "env") "observation_space");
            ("action_space", Attribute (Name "env") "action_space");
            ("demonstrations", Name "transitions");
            ("rng", Name "rng")]) ];
    [ evaluate_into "reward_before_training"
        (Attribute (Name "bc_trainer") "policy") (Name "env") 10 [];
      print_labelled "Reward before training: " "reward_before_training" ];
    [ Expr (Call (Attribute (Name "bc_trainer") "train") []
              [("n_epochs", int 1)]);
      evaluate_into "reward_after_training"
        (Attribute (Name "bc_trainer") "policy") (Name "env") 10 [];
      print_labelled "Reward after training: " "reward_after_training" ] ].

(** Every script of the repository. *)
Definition tutorial_scripts : list (string * script) :=
  [ ("unnamed/part_000", airl_doc);
    ("unnamed/part_001", airl_notebook);
    ("docs/tutorials/8_train_sqil.ipynb", sqil_notebook);
    ("docs/tutorials/10_train_custom_env.ipynb", custom_env_notebook) ].

End Tutorials.

(** ** What the scripts define, call and print *)

Module Analysis.
Import Py.
Open Scope string_scope.
Open Scope list_scope.

Definition mem (x : string) (l : list string) : bool :=
  existsb (String.eqb x) l.

(** *** Traversals *)

Fixpoint subexprs (e : expr) : list expr :=
  e ::
  match e with
  | Name _ => []
  | Constant _ => []
  | Attribute v _ => subexprs v
  | Subscript v s => subexprs v ++ subexprs s
  | Call f args kws =>
      subexprs f ++ flat_map subexprs args
      ++ flat_map (fun kw => subexprs (snd kw)) kws
  | Lambda _ b => subexprs b
  | List_ es => flat_map subexprs es
  | Tuple_ es => flat_map subexprs es
  | Dict_ items =>
      flat_map (fun kv => subexprs (fst kv) ++ subexprs (snd kv)) items
  | ListComp elt _ it => subexprs elt ++ subexprs it
  | JoinedStr vs => flat_map subexprs vs
  | FormattedValue v => subexprs v
  | BinOp l _ r => subexprs l ++ subexprs r
  | UnaryOp _ v => subexprs v
  | Await v => subexprs v
  end.

Definition opt_list {A : Type} (o : option A) : list A :=
  match o with
  | Some a => [a]
  | None => []
  end.

Definition param_exprs (ps : list param) : list expr :=
  flat_map (fun p => opt_list (snd (fst p)) ++ opt_list (snd p)) ps.

(** The expressions a statement holds itself, bodies apart. *)
Definition own_exprs (s : stmt) : list expr :=
  match s with
  | Import _ _ => []
  | ImportFrom _ _ => []
  | Assign t v => [t; v]
  | Expr v => [v]
  | Return v => [v]
  | FunctionDef _ ps _ => param_exprs ps
  | AsyncFunctionDef _ ps _ => param_exprs ps
  | ClassDef _ bases _ => bases
  | Try _ hs _ _ => flat_map (fun h => opt_list (fst h)) hs
  | With items _ => items
  end.

(** A statement and the statements of its bodies, at every depth. *)
Fixpoint nested (s : stmt) : list stmt :=
  s ::
  match s with
  | FunctionDef _ _ b => flat_map nested b
  | AsyncFunctionDef _ _ b => flat_map nested b
  | ClassDef _ _ b => flat_map nested b
  | Try b hs o f =>
      flat_map nested b
      ++ flat_map (fun h => flat_map nested (snd h)) hs
      ++ flat_map nested o ++ flat_map nested f
  | With _ b => flat_map nested b
  | _ => []
  end.

Definition all_stmts (s : script) : list stmt :=
  flat_map nested (statements s).

Definition all_exprs (s : script) : list expr :=
  flat_map subexprs (flat_map own_exprs (all_stmts s)).

(** The last component of what is called, and the name it starts from. *)
Definition callee_name (f : expr) : option string :=
  match f with
  | Name x => Some x
  | Attribute _ a => Some a
  | _ => None
  end.

Fixpoint root (e : expr) : option string :=
  match e with
  | Name x => Some x
  | Attribute v _ => root v
  | Subscript v _ => root v
  | Call f _ _ => root f
  | _ => None
  end.

Definition names_in (e : expr) : list string :=
  flat_map (fun x => match x with
                     | Name n => [n]
                     | _ => []
                     end) (subexprs e).

Definition keyword (k : string) (kws : list (string * expr)) : option expr :=
  option_map snd (find (fun kw => String.eqb (fst kw) k) kws).

(** *** Definitions made by a script *)

Definition class_defs (s : script) : list string :=
  flat_map (fun x => match x with
                     | ClassDef n _ _ => [n]
                     | _ => []
                     end) (all_stmts s).

Definition function_defs (s : script) : list string :=
  flat_map (fun x => match x with
                     | FunctionDef n _ _ => [n]
                     | AsyncFunctionDef n _ _ => [n]
                     | _ => []
                     end) (all_stmts s).

Definition authors_nothing (s : script) : bool :=
  match class_defs s, function_defs s with
  | [], [] => true
  | _, _ => false
  end.

(** The anonymous functions of a script, and whether one only forwards to
    a single call. *)
Definition lambdas (s : script) : list expr :=
  filter (fun e => match e with
                   | Lambda _ _ => true
                   | _ => false
                   end) (all_exprs s).

Definition forwards (e : expr) : bool :=
  match e with
  | Lambda _ (Call _ _ _) => true
  | _ => false
  end.

(** *** Where a called name comes from *)

Inductive origin : Type :=
| External     (* imported, or obtained from a call to an imported name *)
| Builtin      (* print, range *)
| Repository   (* a class or function defined by the script *)
| Parameter_   (* a parameter of a function or lambda of the script *)
| Literal      (* a constant or a display *)
| Unbound.

Definition scope : Type := list (string * origin).

Fixpoint first_component (s : string) : string :=
  match s with
  | EmptyString => EmptyString
  | String c r =>
      if Ascii.eqb c "."%char then EmptyString
      else String c (first_component r)
  end.

Definition builtins : scope := [("print", Builtin); ("range", Builtin)].

Definition lookup (sc : scope) (x : string) : origin :=
  match find (fun b => String.eqb (fst b) x) sc with
  | Some b => snd b
  | None => Unbound
  end.

Definition origin_of (sc : scope) (e : expr) : origin :=
  match root e with
  | Some x => lookup sc x
  | None => Literal
  end.

Fixpoint target_names (t : expr) : list string :=
  match t with
  | Name x => [x]
  | Tuple_ es => flat_map target_names es
  | List_ es => flat_map target_names es
  | _ => []
  end.

Definition bind_stmt (sc : scope) (s : stmt) : scope :=
  match s with
  | Import n (Some a) => (a, External) :: sc
  | Import n None => (first_component n, External) :: sc
  | ImportFrom _ names => map (fun n => (n, External)) names ++ sc
  | ClassDef n _ _ => (n, Repository) :: sc
  | FunctionDef n _ _ => (n, Repository) :: sc
  | AsyncFunctionDef n _ _ => (n, Repository) :: sc
  | Assign t v => map (fun x => (x, origin_of sc v)) (target_names t) ++ sc
  | _ => sc
  end.

Definition bind_params (ps : list string) (sc : scope) : scope :=
  map (fun x => (x, Parameter_)) ps ++ sc.

(** Every call of an expression, with the origin of what it calls; a
    lambda's parameters hide the names around it. *)
Fixpoint calls_expr (sc : scope) (e : expr) : list (expr * origin) :=
  match e with
  | Name _ => []
  | Constant _ => []
  | Attribute v _ => calls_expr sc v
  | Subscript v s => calls_expr sc v ++ calls_expr sc s
  | Call f args kws =>
      (f, origin_of sc f) ::
      calls_expr sc f ++ flat_map (calls_expr sc) args
      ++ flat_map (fun kw => calls_expr sc (snd kw)) kws
  | Lambda ps b => calls_expr (bind_params ps sc) b
  | List_ es => flat_map (calls_expr sc) es
  | Tuple_ es => flat_map (calls_expr sc) es
  | Dict_ items =>
      flat_map (fun kv => calls_expr sc (fst kv) ++ calls_expr sc (snd kv))
        items
  | ListComp elt t it =>
      calls_expr sc it ++ calls_expr ((t, Literal) :: sc) elt
  | JoinedStr vs => flat_map (calls_expr sc) vs
  | FormattedValue v => calls_expr sc v
  | BinOp l _ r => calls_expr sc l ++ calls_expr sc r
  | UnaryOp _ v => calls_expr sc v
  | Await v => calls_expr sc v
  end.

Fixpoint calls_stmt (sc : scope) (s : stmt) : list (expr * origin) :=
  let block :=
    fix block (sc : scope) (l : list stmt) : list (expr * origin) :=
      match l with
      | [] => []
      | x :: t => calls_stmt sc x ++ block (bind_stmt sc x) t
      end in
  flat_map (calls_expr sc) (own_exprs s) ++
  match s with
  | FunctionDef _ ps b => block (bind_params (map (fun p => fst (fst p)) ps) sc) b
  | AsyncFunctionDef _ ps b =>
      block (bind_params (map (fun p => fst (fst p)) ps) sc) b
  | ClassDef _ _ b => block sc b
  | Try b hs o f =>
      block sc b ++ flat_map (fun h => block sc (snd h)) hs
      ++ block sc o ++ block sc f
  | With _ b => block sc b
  | _ => []
  end.

Fixpoint calls_block (sc : scope) (l : list stmt) : list (expr * origin) :=
  match l with
  | [] => []
  | x :: t => calls_stmt sc x ++ calls_block (bind_stmt sc x) t
  end.

Definition calls (s : script) : list (expr * origin) :=
  calls_block builtins (statements s).

Definition is_library (o : origin) : bool :=
  match o with
  | External => true
  | Builtin => true
  | _ => false
  end.

(** The calls of a script that do not go to a library or a builtin. *)
Definition own_calls (s : script) : list (expr * origin) :=
  filter (fun c => negb (is_library (snd c))) (calls s).

(** *** Implementing and registering a provider of a library interface *)

Definition imported_names (s : script) : list string :=
  flat_map (fun x => match x with
                     | Import n (Some a) => [a]
                     | Import n None => [first_component n]
                     | ImportFrom _ names => names
                     | _ => []
                     end) (all_stmts s).

Definition from_import (s : script) (e : expr) : bool :=
  match root e with
  | Some x => mem x (imported_names s)
  | None => false
  end.

(** The classes that derive from a class of a library. *)
Definition provider_classes (s : script) : list (string * list expr) :=
  flat_map (fun x => match x with
                     | ClassDef n bases _ =>
                         if existsb (from_import s) bases then [(n, bases)]
                         else []
                     | _ => []
                     end) (all_stmts s).

Definition is_call_to (name : string) (e : expr) : bool :=
  match e with
  | Call f _ _ =>
      match callee_name f with
      | Some n => String.eqb n name
      | None => false
      end
  | _ => false
  end.

(** The keyword arguments of the calls of [register]. *)
Definition registrations (s : script) : list (list (string * expr)) :=
  flat_map (fun e => match e with
                     | Call f _ kws =>
                         if is_call_to "register" e then [kws] else []
                     | _ => []
                     end) (all_exprs s).

Definition consumer_only (s : script) : bool :=
  match provider_classes s, registrations s with
  | [], [] => true
  | _, _ => false
  end.

(** *** The stages of a script *)

Inductive stage : Type :=
| ConstructEnv
| ObtainExpert
| CollectRollouts
| ConstructLearner
| TrainLoop
| Evaluate.

Definition rank (g : stage) : nat :=
  match g with
  | ConstructEnv => 0
  | ObtainExpert => 1
  | CollectRollouts => 2
  | ConstructLearner => 3
  | TrainLoop => 4
  | Evaluate => 5
  end.

Definition stage_eqb (a b : stage) : bool := Nat.eqb (rank a) (rank b).

Definition env_constructors : list string :=
  ["make_vec_env"; "make"; "DummyVecEnv"; "SubprocVecEnv"; "TimeLimit";
   "ObservationMatchingEnv"].

Definition rollout_sources : list string :=
  ["rollout"; "flatten_trajectories"; "load_dataset";
   "TrajectoryDatasetSequence"].

Definition learner_constructors : list string :=
  ["BasicShapedRewardNet"; "AIRL"; "SQIL"; "BC"].

(** [PPO], [learn] and [evaluate_policy] serve the expert or the learner:
    the variable assigned, the receiver and the first argument tell
    which. *)
Definition on_expert (x : option string) : bool :=
  match x with
  | Some n => String.eqb n "expert"
  | None => false
  end.

Definition classify (targets : list string) (f : expr) (args : list expr)
    : option stage :=
  match callee_name f with
  | None => None
  | Some n =>
      if mem n env_constructors then Some ConstructEnv
      else if String.eqb n "load_policy" then Some ObtainExpert
      else if String.eqb n "PPO" then
        if on_expert (hd_error targets) then Some ObtainExpert
        else Some ConstructLearner
      else if String.eqb n "learn" then
        if on_expert (root f) then Some ObtainExpert else Some TrainLoop
      else if mem n rollout_sources then Some CollectRollouts
      else if mem n learner_constructors then Some ConstructLearner
      else if String.eqb n "train" then Some TrainLoop
      else if String.eqb n "evaluate_policy" then
        if on_expert (match args with
                      | a :: _ => root a
                      | [] => None
                      end)
        then Some ObtainExpert else Some Evaluate
      else None
  end.

Definition stage_of (s : stmt) : option stage :=
  match s with
  | Assign t (Call f args _) => classify (target_names t) f args
  | Expr (Call f args _) => classify [] f args
  | _ => None
  end.

(** The stages of the top-level statements, in the order of the script. *)
Definition stage_trace (s : script) : list stage :=
  flat_map (fun x => opt_list (stage_of x)) (statements s).

Fixpoint squash (l : list stage) : list stage :=
  match l with
  | a :: (b :: _) as t => if stage_eqb a b then squash t else a :: squash t
  | _ => l
  end.

Fixpoint ordered (l : list stage) : bool :=
  match l with
  | a :: (b :: _) as t => Nat.leb (rank a) (rank b) && ordered t
  | _ => true
  end.

Definition occurs (g : stage) (l : list stage) : bool :=
  existsb (stage_eqb g) l.

(** The stages before the first occurrence of [g]. *)
Fixpoint before (g : stage) (l : list stage) : list stage :=
  match l with
  | [] => []
  | a :: t => if stage_eqb a g then [] else a :: before g t
  end.

(** *** What the last cell prints *)

Definition print_args (s : stmt) : option (list expr) :=
  match s with
  | Expr (Call (Name "print") args _) => Some args
  | _ => None
  end.

Definition plot_names (s : script) : list string :=
  flat_map (fun x => match x with
                     | Import n (Some a) =>
                         if String.eqb (first_component n) "matplotlib"
                         then [a] else []
                     | _ => []
                     end) (all_stmts s).

(** Statements that only show something: a [print], or a call into
    matplotlib. *)
Definition is_output (plots : list string) (s : stmt) : bool :=
  match print_args s with
  | Some _ => true
  | None =>
      match s with
      | Expr (Call f _ _) =>
          match root f with
          | Some x => mem x plots
          | None => false
          end
      | _ => false
      end
  end.

(** *** Vectorized environments and concurrency *)

Inductive env_count : Type :=
| NEnvs (z : Z)                 (* the keyword [n_envs] *)
| Constructors (n : nat).       (* a list of [n] constructors *)

Definition list_size (e : expr) : option nat :=
  match e with
  | List_ es => Some (length es)
  | ListComp _ _ (Call (Name "range") [Constant (CInt k)] []) =>
      Some (Z.to_nat k)
  | _ => None
  end.

(** The count a call site of a vectorized environment passes, when it is
    written at the call site itself. *)
Definition vec_env_count (e : expr) : list (string * option env_count) :=
  match e with
  | Call f args kws =>
      match callee_name f with
      | Some "make_vec_env" =>
          [("make_vec_env",
            match keyword "n_envs" kws with
            | Some (Constant (CInt z)) => Some (NEnvs z)
            | _ => None
            end)]
      | Some "DummyVecEnv" =>
          [("DummyVecEnv",
            match args with
            | [a] => option_map Constructors (list_size a)
            | _ => None
            end)]
      | Some "SubprocVecEnv" =>
          [("SubprocVecEnv",
            match args with
            | [a] => option_map Constructors (list_size a)
            | _ => None
            end)]
      | _ => []
      end
  | _ => []
  end.

Definition vec_env_sites (s : script) : list (string * option env_count) :=
  flat_map vec_env_count (all_exprs s).

Definition claimed_count (c : option env_count) : bool :=
  match c with
  | Some (NEnvs 8) => true
  | Some (NEnvs 4) => true
  | Some (Constructors 4) => true
  | _ => false
  end.

Definition concurrency_modules : list string :=
  ["threading"; "_thread"; "multiprocessing"; "concurrent"; "asyncio";
   "subprocess"; "queue"; "signal"; "sched"; "select"; "selectors"].

Definition imported_modules (s : script) : list string :=
  flat_map (fun x => match x with
                     | Import n _ => [n]
                     | ImportFrom m _ => [m]
                     | _ => []
                     end) (all_stmts s).

Definition concurrency_imports (s : script) : list string :=
  filter (fun m => mem (first_component m) concurrency_modules)
         (imported_modules s).

Definition async_nodes (s : script) : nat :=
  length (filter (fun x => match x with
                           | AsyncFunctionDef _ _ _ => true
                           | _ => false
                           end) (all_stmts s))
  + length (filter (fun e => match e with
                             | Await _ => true
                             | _ => false
                             end) (all_exprs s)).

Definition no_concurrency (s : script) : bool :=
  match concurrency_imports s with
  | [] => Nat.eqb (async_nodes s) 0
  | _ => false
  end.

(** *** The element type of the spaces: the [dtype] of every call of
    [Box] *)

Definition box_dtypes (s : script) : list (option expr) :=
  flat_map (fun e =>
              match e with
              | Call (Name "Box") _ kws => [keyword "dtype" kws]
              | _ => []
              end) (all_exprs s).

(** *** The episode limit around ObservationMatchingEnv *)

Definition episode_limits (s : script) : list (string * option expr) :=
  flat_map (fun e =>
              match e with
              | Call f _ kws =>
                  match callee_name f with
                  | Some n =>
                      if mem n ["register"; "TimeLimit"]
                      then [(n, keyword "max_episode_steps" kws)] else []
                  | None => []
                  end
              | _ => []
              end) (all_exprs s).

Definition class_body (c : string) (s : script) : list stmt :=
  flat_map (fun x => match x with
                     | ClassDef n _ b =>
                         if String.eqb n c then flat_map nested b else []
                     | _ => []
                     end) (all_stmts s).

Definition method_body (c m : string) (s : script) : list stmt :=
  flat_map (fun x => match x with
                     | FunctionDef n _ b =>
                         if String.eqb n m then flat_map nested b else []
                     | _ => []
                     end) (class_body c s).

Definition returns (l : list stmt) : list expr :=
  flat_map (fun x => match x with
                     | Return v => [v]
                     | _ => []
                     end) l.

(** The third component of every tuple that the method returns. *)
Definition done_flags (c m : string) (s : script) : list (option expr) :=
  map (fun v => match v with
                | Tuple_ es => nth_error es 2
                | _ => None
                end) (returns (method_body c m s)).

Definition names_of_class (c : string) (s : script) : list string :=
  flat_map names_in (flat_map own_exprs (class_body c s)).

(** *** Names read before they are bound *)

(** The names a script may read without binding them: the builtins it
    uses. *)
Definition initial_scope : scope := ("int", Builtin) :: builtins.

Definition binds (sc : scope) (x : string) : bool :=
  existsb (fun b => String.eqb (fst b) x) sc.

(** The names an expression reads that [sc] does not bind. *)
Fixpoint unbound_expr (sc : scope) (e : expr) : list string :=
  match e with
  | Name x => if binds sc x then [] else [x]
  | Constant _ => []
  | Attribute v _ => unbound_expr sc v
  | Subscript v i => unbound_expr sc v ++ unbound_expr sc i
  | Call f args kws =>
      unbound_expr sc f ++ flat_map (unbound_expr sc) args
      ++ flat_map (fun kw => unbound_expr sc (snd kw)) kws
  | Lambda ps b => unbound_expr (bind_params ps sc) b
  | List_ es => flat_map (unbound_expr sc) es
  | Tuple_ es => flat_map (unbound_expr sc) es
  | Dict_ items =>
      flat_map (fun kv => unbound_expr sc (fst kv) ++ unbound_expr sc (snd kv))
        items
  | ListComp elt t it =>
      unbound_expr sc it ++ unbound_expr ((t, Literal) :: sc) elt
  | JoinedStr vs => flat_map (unbound_expr sc) vs
  | FormattedValue v => unbound_expr sc v
  | BinOp l _ r => unbound_expr sc l ++ unbound_expr sc r
  | UnaryOp _ v => unbound_expr sc v
  | Await v => unbound_expr sc v
  end.

(** A target reads the objects it stores into, not the names it binds. *)
Fixpoint unbound_target (sc : scope) (t : expr) : list string :=
  match t with
  | Name _ => []
  | Tuple_ es => flat_map (unbound_target sc) es
  | List_ es => flat_map (unbound_target sc) es
  | _ => unbound_expr sc t
  end.

(** A body sees the names bound before its [def], the function itself
    and its parameters; this is stricter than Python, which looks a
    global up when the body runs. *)
Fixpoint unbound_stmt (sc : scope) (s : stmt) : list string :=
  let block :=
    fix block (sc : scope) (l : list stmt) : list string :=
      match l with
      | [] => []
      | x :: t => unbound_stmt sc x ++ block (bind_stmt sc x) t
      end in
  match s with
  | Import _ _ => []
  | ImportFrom _ _ => []
  | Assign t v => unbound_expr sc v ++ unbound_target sc t
  | Expr v => unbound_expr sc v
  | Return v => unbound_expr sc v
  | FunctionDef n ps b =>
      flat_map (unbound_expr sc) (param_exprs ps)
      ++ block (bind_params (map (fun p => fst (fst p)) ps)
                  ((n, Repository) :: sc)) b
  | AsyncFunctionDef n ps b =>
      flat_map (unbound_expr sc) (param_exprs ps)
      ++ block (bind_params (map (fun p => fst (fst p)) ps)
                  ((n, Repository) :: sc)) b
  | ClassDef _ bases b => flat_map (unbound_expr sc) bases ++ block sc b
  | Try b hs o f =>
      block sc b
      ++ flat_map (fun h => flat_map (unbound_expr sc) (opt_list (fst h))
                            ++ block sc (snd h)) hs
      ++ block sc o ++ block sc f
  | With items b => flat_map (unbound_expr sc) items ++ block sc b
  end.

Fixpoint unbound_block (sc : scope) (l : list stmt) : list string :=
  match l with
  | [] => []
  | x :: t => unbound_stmt sc x ++ unbound_block (bind_stmt sc x) t
  end.

Definition unbound_names (s : script) : list string :=
  unbound_block initial_scope (statements s).

(** The script without the cells at the positions [skip]. *)
Fixpoint without_from (i : nat) (skip : list nat) (s : script) : script :=
  match s with
  | [] => []
  | c :: t =>
      if existsb (Nat.eqb i) skip then without_from (S i) skip t
      else c :: without_from (S i) skip t
  end.

Definition without (skip : list nat) (s : script) : script :=
  without_from 0 skip s.

(** *** Variables overwritten before they are read *)

(** The names a statement reads from around it, and the names it binds. *)
Definition free_names (s : stmt) : list string := unbound_stmt [] s.

Definition bound_names (s : stmt) : list string := map fst (bind_stmt [] s).

(** Whether the statements [rest] bind [x] anew before any of them reads
    it. *)
Fixpoint overwritten_unread (x : string) (rest : list stmt) : bool :=
  match rest with
  | [] => false
  | s :: t =>
      if mem x (free_names s) then false
      else if mem x (bound_names s) then true
      else overwritten_unread x t
  end.

(** The top-level assignments whose value no statement reads before the
    variable is bound anew.  The name [_], which the scripts use to throw
    a value away, is left out. *)
Fixpoint dead_stores (l : list stmt) : list (string * expr) :=
  match l with
  | [] => []
  | s :: t =>
      match s with
      | Assign tg v =>
          map (fun x => (x, v))
              (filter (fun x => negb (String.eqb x "_")
                                && overwritten_unread x t)
                      (target_names tg))
      | _ => []
      end ++ dead_stores t
  end.

(** *** What a variable denotes *)

Definition drop (xs : list string) (m : list (string * expr))
    : list (string * expr) :=
  filter (fun b => negb (mem (fst b) xs)) m.

(** [e] with the variables of [m] replaced by what they denote. *)
Fixpoint subst (m : list (string * expr)) (e : expr) : expr :=
  match e with
  | Name x =>
      match find (fun b => String.eqb (fst b) x) m with
      | Some b => snd b
      | None => e
      end
  | Constant _ => e
  | Attribute v a => Attribute (subst m v) a
  | Subscript v i => Subscript (subst m v) (subst m i)
  | Call f args kws =>
      Call (subst m f) (map (subst m) args)
           (map (fun kw => (fst kw, subst m (snd kw))) kws)
  | Lambda ps b => Lambda ps (subst (drop ps m) b)
  | List_ es => List_ (map (subst m) es)
  | Tuple_ es => Tuple_ (map (subst m) es)
  | Dict_ items =>
      Dict_ (map (fun kv => (subst m (fst kv), subst m (snd kv))) items)
  | ListComp elt t it => ListComp (subst (drop [t] m) elt) t (subst m it)
  | JoinedStr vs => JoinedStr (map (subst m) vs)
  | FormattedValue v => FormattedValue (subst m v)
  | BinOp l o r => BinOp (subst m l) o (subst m r)
  | UnaryOp o v => UnaryOp o (subst m v)
  | Await v => Await (subst m v)
  end.

(** Straight-line statements read as equations: an assignment to a name
    makes the name denote the expression assigned; any other binding of
    the name makes it denote nothing known. *)
Definition denote (m : list (string * expr)) (s : stmt)
    : list (string * expr) :=
  match s with
  | Assign (Name x) v => (x, subst m v) :: drop [x] m
  | _ => drop (bound_names s) m
  end.

Fixpoint denotations (m : list (string * expr)) (l : list stmt)
    : list (string * expr) :=
  match l with
  | [] => m
  | s :: t => denotations (denote m s) t
  end.

(** What the first [return] of a body returns. *)
Fixpoint returned (m : list (string * expr)) (body : list stmt)
    : option expr :=
  match body with
  | [] => None
  | Return v :: _ => Some (subst m v)
  | s :: t => returned (denote m s) t
  end.

Definition function_body (f : string) (s : script) : list stmt :=
  flat_map (fun x => match x with
                     | FunctionDef n _ b => if String.eqb n f then b else []
                     | _ => []
                     end) (statements s).

Definition denotation (x : string) (s : script) : option expr :=
  option_map snd
    (find (fun b => String.eqb (fst b) x) (denotations [] (statements s))).

(** *** The page against the notebook *)

(** [e] without the keyword arguments named in [ks]. *)
Fixpoint drop_keywords (ks : list string) (e : expr) : expr :=
  match e with
  | Name _ => e
  | Constant _ => e
  | Attribute v a => Attribute (drop_keywords ks v) a
  | Subscript v i => Subscript (drop_keywords ks v) (drop_keywords ks i)
  | Call f args kws =>
      Call (drop_keywords ks f) (map (drop_keywords ks) args)
           (filter (fun kw => negb (mem (fst kw) ks))
                   (map (fun kw => (fst kw, drop_keywords ks (snd kw))) kws))
  | Lambda ps b => Lambda ps (drop_keywords ks b)
  | List_ es => List_ (map (drop_keywords ks) es)
  | Tuple_ es => Tuple_ (map (drop_keywords ks) es)
  | Dict_ items =>
      Dict_ (map (fun kv => (drop_keywords ks (fst kv),
                             drop_keywords ks (snd kv))) items)
  | ListComp elt t it =>
      ListComp (drop_keywords ks elt) t (drop_keywords ks it)
  | JoinedStr vs => JoinedStr (map (drop_keywords ks) vs)
  | FormattedValue v => FormattedValue (drop_keywords ks v)
  | BinOp l o r => BinOp (drop_keywords ks l) o (drop_keywords ks r)
  | UnaryOp o v => UnaryOp o (drop_keywords ks v)
  | Await v => Await (drop_keywords ks v)
  end.

Definition is_import (s : stmt) : bool :=
  match s with
  | Import _ _ => true
  | ImportFrom _ _ => true
  | _ => false
  end.

Definition is_plot (plots : list string) (s : stmt) : bool :=
  match s with
  | Expr (Call f _ _) =>
      match root f with
      | Some x => mem x plots
      | None => false
      end
  | _ => false
  end.

(** The statements of a script that are neither imports nor calls into
    matplotlib, with the keywords [ks] dropped from the statements that
    are an assignment or an expression. *)
Definition core (ks : list string) (s : script) : list stmt :=
  map (fun x => match x with
                | Assign t v => Assign t (drop_keywords ks v)
                | Expr v => Expr (drop_keywords ks v)
                | _ => x
                end)
      (filter (fun x => negb (is_import x) && negb (is_plot (plot_names s) x))
              (statements s)).

(** The names and modules a script imports, as pairs. *)
Definition imports (s : script) : list (string * string) :=
  flat_map (fun x => match x with
                     | Import n (Some a) => [(n, a)]
                     | Import n None => [(n, first_component n)]
                     | ImportFrom m names => map (fun n => (m, n)) names
                     | _ => []
                     end) (statements s).

Definition pair_eqb (a b : string * string) : bool :=
  String.eqb (fst a) (fst b) && String.eqb (snd a) (snd b).

Definition subset (a b : list (string * string)) : bool :=
  forallb (fun x => existsb (pair_eqb x) b) a.

(** *** The reward that the last cell prints

    What the top-level statements have bound, read one statement after
    the other as the script runs them.  A training is a call of the
    method [train] on a variable that holds the result of a call, as the
    trainers of AIRL, SQIL and BC are built and trained in the scripts;
    the [learn] of the expert in 10_train_custom_env.ipynb is none.  The
    trained policy is the attribute [policy] of such a variable, or the
    variable that the trainer was given as [gen_algo].  An evaluation is a
    call of the [evaluate_policy] imported from
    [stable_baselines3.common.evaluation]. *)

Inductive binding : Type :=
| Module (m : string)               (* [import m as x] *)
| From (m n : string)               (* [from m import n] *)
| Result (gen_algo : option string) (* the result of a call, and the
                                       variable it got as [gen_algo] *)
| Reward (per_episode : bool)       (* the first component of an evaluation
                                       of the trained policy *)
| Other.

(** The bindings, the newest first, and the variables whose [train] has
    been called. *)
Definition facts : Type := (list (string * binding) * list string)%type.

Definition binding_of (fs : facts) (x : string) : option binding :=
  option_map snd (find (fun b => String.eqb (fst b) x) (fst fs)).

Definition learner_of (fs : facts) (t : string) : option string :=
  match binding_of fs t with
  | Some (Result g) => g
  | _ => None
  end.

Definition still_trained (xs : list string) (fs : facts) : list string :=
  filter (fun t => negb (mem t xs)
                   && match learner_of fs t with
                      | Some l => negb (mem l xs)
                      | None => true
                      end) (snd fs).

(** The names [xs] are bound anew: what they held is gone, and a trainer
    among them, or one whose learner is among them, is not known to be
    trained any more. *)
Definition unbind (xs : list string) (fs : facts) : facts :=
  (map (fun b =>
          if mem (fst b) xs then (fst b, Other)
          else match snd b with
               | Result (Some l) =>
                   if mem l xs then (fst b, Result None) else b
               | _ => b
               end) (fst fs),
   still_trained xs fs).

(** The names [xs] are read by code that may change the objects they
    hold: a reward among them may be another value afterwards, a trainer
    or learner among them may be untrained.  An imported name stays what
    it is. *)
Definition touch (xs : list string) (fs : facts) : facts :=
  (map (fun b =>
          match snd b with
          | Reward _ => if mem (fst b) xs then (fst b, Other) else b
          | _ => b
          end) (fst fs),
   still_trained xs fs).

Definition bind_to (x : string) (b : binding) (fs : facts) : facts :=
  ((x, b) :: fst fs, snd fs).

Definition bind_all (xs : list string) (b : string -> binding) (fs : facts)
    : facts :=
  fold_right (fun x acc => bind_to x (b x) acc) fs xs.

(** A training makes the rewards measured before it rewards of an earlier
    policy. *)
Definition stale (fs : facts) : facts :=
  (map (fun b => match snd b with
                 | Reward _ => (fst b, Other)
                 | _ => b
                 end) (fst fs), snd fs).

Definition reads (es : list expr) : list string :=
  flat_map (unbound_expr []) es.

Definition is_evaluate_policy (fs : facts) (f : expr) : bool :=
  match f with
  | Name x =>
      match binding_of fs x with
      | Some (From "stable_baselines3.common.evaluation" "evaluate_policy") =>
          true
      | _ => false
      end
  | _ => false
  end.

(** The policy of a trainer whose [train] was called: [t.policy], or the
    variable that the trainer [t] got as [gen_algo]. *)
Definition trained_policy (fs : facts) (p : expr) : bool :=
  match p with
  | Attribute (Name t) "policy" => mem t (snd fs)
  | Name l =>
      existsb (fun t => match learner_of fs t with
                        | Some l' => String.eqb l l'
                        | None => false
                        end) (snd fs)
  | _ => false
  end.

Definition per_episode (kws : list (string * expr)) : bool :=
  match keyword "return_episode_rewards" kws with
  | Some (Constant (CBool true)) => true
  | _ => false
  end.

Definition gen_algo_of (kws : list (string * expr)) : option string :=
  match keyword "gen_algo" kws with
  | Some (Name l) => Some l
  | _ => None
  end.

Definition all_names (es : list expr) : option (list string) :=
  fold_right (fun e acc => match e, acc with
                           | Name x, Some xs => Some (x :: xs)
                           | _, _ => None
                           end) (Some []) es.

(** The mean reward itself: the variable of an evaluation that returned
    the mean, or [np.mean] of one that returned the rewards of the
    episodes. *)
Definition is_mean_reward (fs : facts) (e : expr) : bool :=
  match e with
  | Name x =>
      match binding_of fs x with
      | Some (Reward false) => true
      | _ => false
      end
  | Call (Attribute (Name m) "mean") [Name x] [] =>
      match binding_of fs m, binding_of fs x with
      | Some (Module "numpy"), Some (Reward true) => true
      | _, _ => false
      end
  | _ => false
  end.

(** An argument of [print] that shows it: the mean reward, or an
    f-string that formats it. *)
Definition shows (fs : facts) (arg : expr) : bool :=
  is_mean_reward fs arg
  || match arg with
     | JoinedStr vs =>
         existsb (fun v => match v with
                           | FormattedValue e => is_mean_reward fs e
                           | _ => false
                           end) vs
     | _ => false
     end.

(** One statement: the facts after it, and whether it is a [print], of
    the builtin, that shows the mean reward of the trained policy.
    [evaluate_policy] is taken to leave the policy it evaluates as it is,
    and [print] what it prints; a statement that is none of the known
    forms unbinds every name it binds and touches every name it reads. *)
Definition scan_stmt (fs : facts) (s : stmt) : facts * bool :=
  let unknown :=
    (bind_all (bound_names s) (fun _ => Other)
       (unbind (bound_names s) (touch (free_names s) fs)), false) in
  match s with
  | Import n (Some a) => (bind_to a (Module n) (unbind [a] fs), false)
  | ImportFrom m names =>
      (bind_all names (fun n => From m n) (unbind names fs), false)
  | Assign (Tuple_ tg) (Call f (p :: rest) kws) =>
      match all_names tg with
      | Some (x :: others) =>
          if is_evaluate_policy fs f then
            (bind_to x (if trained_policy fs p
                        then Reward (per_episode kws) else Other)
               (bind_all others (fun _ => Other)
                  (unbind (x :: others)
                     (touch (reads (rest ++ map snd kws)) fs))),
             false)
          else unknown
      | _ => unknown
      end
  | Assign (Name x) (Call f args kws) =>
      (bind_to x (Result (gen_algo_of kws))
         (unbind [x] (touch (reads (f :: args ++ map snd kws)) fs)), false)
  | Expr (Call (Attribute (Name t) "train") args kws) =>
      match binding_of fs t with
      | Some (Result _) =>
          let fs1 := stale (touch (reads (args ++ map snd kws)) fs) in
          ((fst fs1, t :: snd fs1), false)
      | _ => unknown
      end
  | Expr (Call (Name "print") args []) =>
      match binding_of fs "print" with
      | None => (fs, existsb (shows fs) args)
      | Some _ => unknown
      end
  | _ => unknown
  end.

Fixpoint scan (fs : facts) (l : list stmt) : list bool :=
  match l with
  | [] => []
  | s :: t => snd (scan_stmt fs s) :: scan (fst (scan_stmt fs s)) t
  end.

(** For every top-level statement, whether it prints the mean reward of
    the trained policy. *)
Definition report_flags (s : script) : list bool :=
  scan ([], []) (statements s).

Definition last_cell_flags (s : script) : list (bool * stmt) :=
  skipn (length (statements s) - length (last s []))
        (combine (report_flags s) (statements s)).

(** From some statement of [l] on, the mean reward is printed and nothing
    but output follows. *)
Fixpoint reports (plots : list string) (l : list (bool * stmt)) : bool :=
  match l with
  | [] => false
  | x :: t =>
      if fst x then forallb (fun y => is_output plots (snd y)) t
      else reports plots t
  end.

Definition finishes_with_trained_reward (s : script) : bool :=
  reports (plot_names s) (last_cell_flags s).

(** The last statement of the script prints it. *)
Definition ends_on_trained_reward (s : script) : bool :=
  last (report_flags s) false.

(** The statements that a run of the script in [w] completed and that
    printed the mean reward of the trained policy. *)
Definition reported (w : world) (s : script) : list stmt :=
  map snd (filter fst (combine (report_flags s)
                         (completed w (statements s) 0))).

(** The script with another last cell. *)
Definition with_last_cell (s : script) (c : list stmt) : script :=
  removelast s ++ [c].

End Analysis.

(** ** A small generator, to run the environment on

    A linear congruential generator stands for the numpy generator where a
    statement is exercised on concrete calls; its seed is the entropy. *)

Module Lcg.

Definition modulus : Z := 2147483648.

Definition next (s : Z) : Z := (1103515245 * s + 12345) mod modulus.

Definition sample (s : Z) : Q := Qmake (s mod modulus) 2147483648.

Fixpoint uniform (s : Z) (n : nat) : list Q * Z :=
  match n with
  | O => ([], s)
  | S n' =>
      let s1 := next s in
      let d := uniform s1 n' in
      (sample s1 :: fst d, snd d)
  end.

(** gym refuses a negative seed. *)
Definition np_random (h : Z) (sd : option Z) : result (Z * Z) :=
  match sd with
  | Some s => if s <? 0 then Raise GymError else Ok (s, s)
  | None => Ok (h, h)
  end.

(** The instance that [ObservationMatchingEnv()] gives on entropy [h], the
    same instance after [seed(s)], and a short episode. *)
Definition fresh (h : Z) : Env Z := mkEnv 2 (mkBox 0 1 2) (mkBox 0 1 2) h None.

Definition seeded (s : Z) : Env Z := mkEnv 2 (mkBox 0 1 2) (mkBox 0 1 2) s None.

Definition episode : list (call Z) :=
  [CReset; CStep [(1 # 2)%Q; (1 # 2)%Q]; CStep [0%Q; 1%Q]; CReset;
   CStep [(1 # 4)%Q; (3 # 4)%Q]].

(** The same calls with other actions, an instance in the middle of an
    episode, and calls that never reset. *)
Definition other_episode : list (call Z) :=
  [CReset; CStep [0%Q; 0%Q]; CStep [1%Q; (1 # 3)%Q]; CReset;
   CStep [(2 # 3)%Q; (1 # 5)%Q]].

Definition started (h : Z) : Env Z :=
  mkEnv 2 (mkBox 0 1 2) (mkBox 0 1 2) h (Some [(1 # 2)%Q; (1 # 4)%Q]).

Definition unstarted : list (call Z) :=
  [CStep [(1 # 2)%Q; (1 # 2)%Q]; CSeed 5 (Some 9); CStep [0%Q]; CSeed 6 None;
   CStep []].

End Lcg.

(** * Properties *)

(** ** ObservationMatchingEnv *)

Section ObservationMatchingEnvFacts.

Variable rng : Type.
Variable uniform : rng -> nat -> list Q * rng.
Variable entropy : Type.
Variable seeding_np_random : entropy -> option Z -> result (rng * Z).

Implicit Types e : Env rng.

Lemma new_Box_ok lo hi n b :
  new_Box lo hi n = Ok b -> 0 <= n /\ b = mkBox lo hi n.
Proof.
  unfold new_Box. destruct (Z.ltb_spec n 0) as [Hn|Hn]; intros Hb;
    inversion Hb.
  split; [lia | reflexivity].
Qed.

Lemma init_inv h n e : init seeding_np_random h n = Ok e -> env_inv n e /\ state e = None.
Proof.
  unfold init, bind.
  destruct (new_Box 0 1 n) as [obs|] eqn:Hobs; [|discriminate].
  destruct (seed_attrs seeding_np_random h None); [|discriminate].
  intros H; inversion H; subst; clear H.
  apply new_Box_ok in Hobs. destruct Hobs as [Hn ->].
  repeat split; simpl; auto.
Qed.

Lemma seed_inv h n e sd e' l :
  env_inv n e -> seed seeding_np_random h e sd = Ok (e', l) ->
  env_inv n e' /\ state e' = state e.
Proof.
  unfold seed, bind.
  destruct (seed_attrs seeding_np_random h sd); [|discriminate].
  intros (Hn & Hpos & Hobs & Hst) H; inversion H; subst; clear H.
  repeat split; simpl; auto.
Qed.

Section WithUniform.
Hypothesis Huniform : uniform_spec uniform.

Lemma draw_ok n e :
  env_inv n e ->
  exists d, draw uniform e = Ok d /\
            length (fst d) = Z.to_nat n /\ Forall in_unit_interval (fst d).
Proof.
  intros (Hn & Hpos & _). unfold draw.
  destruct (Z.ltb_spec (num_options e) 0) as [Hneg|_]; [lia|].
  eexists; split; [reflexivity|]. rewrite Hn. apply Huniform.
Qed.

Lemma reset_inv n e :
  env_inv n e ->
  exists e' obs,
    reset uniform e = Ok (e', obs) /\
    env_inv n e' /\ state e' = Some obs /\
    length obs = Z.to_nat n /\ Forall in_unit_interval obs.
Proof.
  intros Hinv. destruct (draw_ok n e Hinv) as (d & Hd & Hlen & Hall).
  destruct Hinv as (Hn & Hpos & Hobs & Hst).
  unfold reset, bind. rewrite Hd.
  eexists; eexists; split; [reflexivity|].
  split; [|split; [reflexivity | split; assumption]].
  unfold env_inv, state_ok; simpl. rewrite Hn. auto.
Qed.

Lemma step_inv n e a e' obs r d i :
  env_inv n e -> step uniform e a = Ok (e', (obs, r, d, i)) ->
  env_inv n e' /\ state e' = Some obs /\
  length obs = Z.to_nat n /\ Forall in_unit_interval obs.
Proof.
  intros Hinv. destruct (draw_ok n e Hinv) as (x & Hx & Hlen & Hall).
  destruct Hinv as (Hn & Hpos & Hobs & Hst).
  unfold step, bind.
  destruct (state e) as [s|]; [|discriminate].
  destruct (np_sub s a); [|discriminate].
  rewrite Hx.
  intros H; inversion H; subst; clear H.
  split; [|split; [reflexivity | split; assumption]].
  unfold env_inv, state_ok; simpl. auto.
Qed.

Lemma unit_interval_in_box n v :
  0 <= n -> length v = Z.to_nat n -> Forall in_unit_interval v ->
  Box_contains (mkBox 0 1 n) v = true.
Proof.
  intros Hn Hlen Hall. unfold Box_contains; simpl.
  apply andb_true_intro; split.
  - apply Z.eqb_eq. rewrite Hlen. lia.
  - apply forallb_forall. intros x Hx.
    rewrite Forall_forall in Hall. destruct (Hall x Hx) as [H0 H1].
    apply andb_true_intro; split; apply Qle_bool_iff;
      [assumption | apply Qlt_le_weak; assumption].
Qed.

(** One call keeps the invariant, returns an observation of the box
    if it returns one, and never loses the state. *)
Lemma do_call_inv n e c :
  env_inv n e ->
  env_inv n (fst (do_call uniform seeding_np_random e c)) /\
  (forall obs, observation_of (snd (do_call uniform seeding_np_random e c)) = Some obs ->
               Box_contains (mkBox 0 1 n) obs = true) /\
  (state e <> None \/ c = CReset ->
   state (fst (do_call uniform seeding_np_random e c)) <> None).
Proof.
  intros Hinv. destruct c as [h sd| |a]; unfold do_call.
  - destruct (seed seeding_np_random h e sd) as [[e' l]|x] eqn:Hs; simpl.
    + destruct (seed_inv _ _ _ _ _ _ Hinv Hs) as [Hi Hst].
      split; [exact Hi|]. split; [discriminate|].
      intros [H|H]; [rewrite Hst; assumption | discriminate].
    + split; [exact Hinv|]. split; [discriminate|].
      intros [H|H]; [assumption | discriminate].
  - destruct (reset_inv _ _ Hinv) as (e' & obs & -> & Hi & Hst & Hlen & Hall).
    simpl. split; [exact Hi|]. split.
    + intros o Ho; inversion Ho; subst.
      apply unit_interval_in_box; auto. apply Hinv.
    + intros _. rewrite Hst. discriminate.
  - destruct (step uniform e a) as [[e' [[[obs r] d] i]]|x] eqn:Hs; simpl.
    + destruct (step_inv _ _ _ _ _ _ _ _ Hinv Hs)
        as (Hi & Hst & Hlen & Hall).
      split; [exact Hi|]. split.
      * intros o Ho; inversion Ho; subst.
        apply unit_interval_in_box; auto. apply Hinv.
      * intros _. rewrite Hst. discriminate.
    + split; [exact Hinv|]. split; [discriminate|].
      intros [H|H]; [assumption | discriminate].
Qed.

Lemma run_inv n cs : forall e,
  env_inv n e ->
  env_inv n (fst (run uniform seeding_np_random e cs)) /\
  forallb (Box_contains (mkBox 0 1 n)) (observations (snd (run uniform seeding_np_random e cs)))
    = true /\
  (state e <> None \/ In CReset cs -> state (fst (run uniform seeding_np_random e cs)) <> None).
Proof.
  induction cs as [|c cs IH]; intros e Hinv; simpl.
  - split; [exact Hinv|]. split; [reflexivity|].
    intros [H|[]]; assumption.
  - destruct (do_call_inv n e c Hinv) as (Hi & Hobs & Hst).
    destruct (do_call uniform seeding_np_random e c) as [e1 o] eqn:Hc;
      simpl in *.
    destruct (IH e1 Hi) as (Hi2 & Hall & Hst2).
    destruct (run uniform seeding_np_random e1 cs) as [e2 os] eqn:Hr;
      simpl in *.
    split; [exact Hi2|]. split.
    + destruct (observation_of o) as [obs|]; simpl; auto.
      rewrite (Hobs obs eq_refl). assumption.
    + intros [H|[H|H]].
      * apply Hst2. left. apply Hst. left. assumption.
      * apply Hst2. left. apply Hst. right. congruence.
      * apply Hst2. right. assumption.
Qed.

End WithUniform.

(** [step] from a set state and an action of the state's shape returns. *)
Lemma step_returns (e : Env rng) s a :
  0 <= num_options e -> state e = Some s -> length a = length s ->
  exists e' obs r, step uniform e a = Ok (e', (obs, r, false, [])).
Proof.
  intros Hpos Hs Hlen. unfold step, draw, bind. rewrite Hs.
  unfold np_sub. rewrite Hlen, Nat.eqb_refl.
  destruct (Z.ltb_spec (num_options e) 0) as [Hneg|_]; [lia|]. eauto.
Qed.

Lemma step_done (e : Env rng) a :
  match step uniform e a with
  | Ok (_, (_, _, d, _)) => d = false
  | Raise _ => True
  end.
Proof.
  unfold step, bind.
  destruct (state e) as [s|]; [|exact I].
  destruct (np_sub s a); [|exact I].
  destruct (draw uniform e); [reflexivity | exact I].
Qed.

Lemma run_done cs : forall e : Env rng,
  forallb (fun o => match done_of o with
                    | Some d => negb d
                    | None => true
                    end) (snd (run uniform seeding_np_random e cs)) = true.
Proof.
  induction cs as [|c cs IH]; intros e; simpl; [reflexivity|].
  destruct (do_call uniform seeding_np_random e c) as [e1 o] eqn:Hc.
  specialize (IH e1). destruct (run uniform seeding_np_random e1 cs) as [e2 os]; simpl in *.
  rewrite IH, andb_true_r.
  destruct c as [h sd| |a]; unfold do_call in Hc.
  - destruct (seed seeding_np_random h e sd) as [[? ?]|?]; inversion Hc;
      reflexivity.
  - destruct (reset uniform e) as [[? ?]|?]; inversion Hc; reflexivity.
  - pose proof (step_done e a) as Hd.
    destruct (step uniform e a) as [[? [[[? ?] d] ?]]|?]; inversion Hc;
      subst; simpl; reflexivity.
Qed.

(** Seeding with a seed makes two instances of one [num_options] equal. *)
Lemma seeded_equal n s h1 h2 g1 g2 (e1 e2 e1' e2' : Env rng) l1 l2 :
  np_random_seeded seeding_np_random ->
  init seeding_np_random h1 n = Ok e1 -> init seeding_np_random h2 n = Ok e2 ->
  seed seeding_np_random g1 e1 (Some s) = Ok (e1', l1) ->
  seed seeding_np_random g2 e2 (Some s) = Ok (e2', l2) ->
  e1' = e2' /\ l1 = l2.
Proof.
  intros Hseeded Hi1 Hi2.
  unfold init, bind in Hi1, Hi2.
  destruct (new_Box 0 1 n) as [b|]; [|discriminate].
  destruct (seed_attrs seeding_np_random h1 None); [|discriminate].
  destruct (seed_attrs seeding_np_random h2 None); [|discriminate].
  inversion Hi1; inversion Hi2; subst; clear Hi1 Hi2.
  unfold seed, seed_attrs, bind; simpl.
  rewrite (Hseeded g1 g2 s).
  destruct (seeding_np_random g2 (Some s)); [|discriminate].
  intros H1 H2; inversion H1; inversion H2; subst. split; reflexivity.
Qed.

End ObservationMatchingEnvFacts.

(** The small generator meets both contracts. *)

Lemma Lcg_sample_in_unit_interval s : in_unit_interval (Lcg.sample s).
Proof.
  unfold in_unit_interval, Lcg.sample, Lcg.modulus, Qle, Qlt; simpl.
  pose proof (Z.mod_pos_bound s 2147483648 eq_refl). lia.
Qed.

Lemma Lcg_uniform_spec : uniform_spec Lcg.uniform.
Proof.
  intros r n. revert r.
  induction n as [|n IH]; intros r; simpl.
  - split; [reflexivity | constructor].
  - destruct (IH (Lcg.next r)) as [Hlen Hall]. split.
    + rewrite Hlen. reflexivity.
    + constructor; [apply Lcg_sample_in_unit_interval | exact Hall].
Qed.

Lemma Lcg_np_random_seeded : np_random_seeded Lcg.np_random.
Proof. intros h1 h2 s. reflexivity. Qed.

(** ** Exceptions in a script without handlers *)

Section Propagation.
Import Py.
Variable w : world.

Lemma quiet_empty a : quiet w a a.
Proof. intros i Hi. lia. Qed.

Lemma quiet_join a b c : quiet w a b -> quiet w b c -> quiet w a c.
Proof.
  intros Hab Hbc i Hi.
  destruct (Nat.lt_ge_cases i b); [apply Hab | apply Hbc]; lia.
Qed.

Lemma propagates_skip : propagates w skip.
Proof. intros a. simpl. split; [lia | apply quiet_empty]. Qed.

Lemma propagates_tick : propagates w (tick w).
Proof.
  intros a. unfold tick, post.
  destruct (raises w a) as [exc|] eqn:Hr.
  - exists a. repeat split; auto. apply quiet_empty.
  - split; [lia|]. intros i Hi. replace i with a by lia. exact Hr.
Qed.

Lemma propagates_seq c1 c2 :
  propagates w c1 -> propagates w c2 -> propagates w (seq c1 c2).
Proof.
  intros H1 H2 a. unfold seq. specialize (H1 a).
  destruct (c1 a) as [b [|exc]]; simpl in H1.
  - destruct H1 as [Hab Hq]. specialize (H2 b).
    destruct (c2 b) as [c [|exc]]; simpl in *.
    + destruct H2 as [Hbc Hq2]. split; [lia|].
      eapply quiet_join; eassumption.
    + destruct H2 as (k & -> & Hbk & Hq2 & Hr). exists k.
      repeat split; auto; [lia|]. eapply quiet_join; eassumption.
  - exact H1.
Qed.

Lemma propagates_seq_all cs :
  Forall (propagates w) cs -> propagates w (seq_all cs).
Proof.
  induction 1 as [|c cs Hc _ IH]; simpl.
  - apply propagates_skip.
  - apply propagates_seq; assumption.
Qed.

Lemma propagates_times k c :
  propagates w c -> propagates w (times k c).
Proof.
  intros Hc. induction k as [|k IH]; simpl.
  - apply propagates_skip.
  - apply propagates_seq; assumption.
Qed.

Lemma propagates_each {A : Type} (f : A -> comp) (l : list A) :
  Forall (fun x => propagates w (f x)) l ->
  propagates w (seq_all (map f l)).
Proof.
  intros H. apply propagates_seq_all. apply Forall_map. exact H.
Qed.

(** Splits a computation along [seq] and [seq_all] and closes the parts
    that are a [skip], a [tick] or an induction hypothesis. *)
Ltac propagate :=
  repeat (first [ apply propagates_skip
                | apply propagates_tick
                | assumption
                | apply propagates_seq
                | apply propagates_each ]).

Lemma propagates_eval e : propagates w (eval w e).
Proof.
  induction e using expr_nested_ind; simpl; propagate.
  - eapply Forall_impl; [|eassumption].
    intros kv [Hk Hv]. apply propagates_seq; assumption.
  - intros a. apply propagates_times. assumption.
Qed.

Lemma propagates_store t : propagates w (store w t).
Proof.
  induction t using expr_nested_ind; simpl; propagate;
    apply propagates_eval.
Qed.

Lemma propagates_eval_defaults ps : propagates w (eval_defaults w ps).
Proof.
  unfold eval_defaults. apply propagates_each.
  apply Forall_forall. intros p _.
  destruct (snd p); [apply propagates_eval | apply propagates_skip].
Qed.

Lemma sum_zero (l : list nat) :
  fold_right Nat.add O l = O -> Forall (fun x => x = O) l.
Proof.
  induction l as [|x l IH]; simpl; intros H; constructor.
  - lia.
  - apply IH. lia.
Qed.

Lemma handler_free_body (b : list stmt) :
  fold_right Nat.add O (map handlers_in b) = O ->
  Forall (fun s => handler_free s = true) b.
Proof.
  intros H. apply sum_zero in H. rewrite Forall_map in H.
  eapply Forall_impl; [|exact H].
  intros s Hs. unfold handler_free. rewrite Hs. reflexivity.
Qed.

Lemma propagates_exec s :
  handler_free s = true -> propagates w (exec w s).
Proof.
  unfold handler_free.
  induction s as [n a|m ns|t v|v|v|n ps b IH|n ps b IH|n bs b IH
                 |b hs o f IHb IHh IHo IHf|its b IH]
    using stmt_nested_ind;
    intros Hfree; simpl in *; try discriminate.
  - apply propagates_tick.
  - apply propagates_tick.
  - apply propagates_seq; [apply propagates_eval | apply propagates_store].
  - apply propagates_eval.
  - apply propagates_eval.
  - apply propagates_eval_defaults.
  - apply propagates_eval_defaults.
  - apply Nat.eqb_eq in Hfree. apply handler_free_body in Hfree.
    apply propagates_seq.
    + apply propagates_each. apply Forall_forall. intros e _.
      apply propagates_eval.
    + apply propagates_each.
      rewrite Forall_forall in IH, Hfree |- *.
      intros s Hs. apply IH; [exact Hs|]. apply Hfree. exact Hs.
Qed.

Lemma propagates_script (s : script) :
  script_handler_free s = true -> post w 0 (run_script w s).
Proof.
  unfold script_handler_free, run_script. intros Hfree.
  apply propagates_each.
  rewrite forallb_forall in Hfree. apply Forall_forall.
  intros x Hx. apply propagates_exec. apply Hfree. exact Hx.
Qed.

End Propagation.

(** A handler does stop an exception: the same call ends the script when
    it stands alone and is swallowed inside a [try] with a bare
    [except]. *)
Lemma try_swallows :
  let boom := Py.Expr (Py.Call (Py.Name "f") [] []) in
  Py.run_script (Py.failing_at 0 "E") [[boom]] = (1%nat, Py.Raised "E") /\
  Py.run_script (Py.failing_at 0 "E") [[Py.Try [boom] [(None, [])] [] []]]
    = (1%nat, Py.Normal).
Proof. split; reflexivity. Qed.

Lemma completed_all w (l : list Py.stmt) : forall n,
  snd (Py.seq_all (map (Py.exec w) l) n) = Py.Normal ->
  Py.completed w l n = l.
Proof.
  induction l as [|s l IH]; intros n H; [reflexivity|].
  cbn [map Py.seq_all fold_right] in H. unfold Py.seq in H.
  cbn [Py.completed].
  destruct (Py.exec w s n) as [n1 [|exc]]; [|discriminate].
  f_equal. apply IH. exact H.
Qed.

Lemma calm_never_raises k (s : Py.script) :
  Py.script_handler_free s = true ->
  snd (Py.run_script (Py.calm k) s) = Py.Normal.
Proof.
  intros Hfree. pose proof (propagates_script (Py.calm k) s Hfree) as H.
  destruct (Py.run_script (Py.calm k) s) as [b [|exc]]; [reflexivity|].
  simpl in H. destruct H as (i & _ & _ & _ & Hr). discriminate.
Qed.

(** ** The claims *)

Section Claims.
Import Py Tutorials Analysis.
Open Scope string_scope.
Open Scope list_scope.

(** C1, as stated, fails: 10_train_custom_env.ipynb defines a class of its
    own, the environment [ObservationMatchingEnv], deriving from [gym.Env]
    and holding the methods [reset] and [step]. *)
Lemma custom_env_notebook_authors_an_environment :
  authors_nothing custom_env_notebook = false /\
  class_defs custom_env_notebook = ["ObservationMatchingEnv"] /\
  provider_classes custom_env_notebook
    = [("ObservationMatchingEnv", [Attribute (Name "gym") "Env"])] /\
  function_defs custom_env_notebook
    = ["__init__"; "seed"; "reset"; "step"; "_make_env"].
Proof. repeat split. Qed.

(** C1, amended: the AIRL page, the AIRL notebook and the SQIL notebook
    define no class and no function, and every call they make goes to an
    imported library name, to a builtin, or to an object obtained from
    such a call.  10_train_custom_env.ipynb defines one class,
    [ObservationMatchingEnv] with the methods [__init__], [seed], [reset]
    and [step], and one function, [_make_env]; its calls that do not go to
    a library are the two constructions of that class and the three calls
    the class makes on [self].  The only other function a script writes is
    one lambda each, which forwards to a single library call. *)
Theorem only_custom_env_notebook_defines_entities :
  Forall (fun p => authors_nothing (snd p) = true /\ own_calls (snd p) = [])
    [ ("unnamed/part_000", airl_doc);
      ("unnamed/part_001", airl_notebook);
      ("docs/tutorials/8_train_sqil.ipynb", sqil_notebook) ] /\
  Forall (fun p => length (lambdas (snd p)) = 1%nat /\
                   forallb forwards (lambdas (snd p)) = true)
    tutorial_scripts /\
  class_defs custom_env_notebook = ["ObservationMatchingEnv"] /\
  function_defs custom_env_notebook
    = ["__init__"; "seed"; "reset"; "step"; "_make_env"] /\
  own_calls custom_env_notebook
    = [ (self_ "seed", Parameter_);
        (Attribute (self_ "np_random") "uniform", Parameter_);
        (Attribute (self_ "np_random") "uniform", Parameter_);
        (Name "ObservationMatchingEnv", Repository);
        (Name "ObservationMatchingEnv", Repository) ].
Proof.
  split; [repeat constructor|].
  split; [repeat constructor|].
  repeat split.
Qed.

(** C2, as stated, fails: 10_train_custom_env.ipynb implements a provider
    of gym's environment interface and registers it with [gym.register]. *)
Lemma custom_env_notebook_registers_a_provider :
  consumer_only custom_env_notebook = false /\
  registrations custom_env_notebook
    = [[ ("id", str "custom/ObservationMatching-v0");
         ("entry_point", Name "ObservationMatchingEnv");
         ("max_episode_steps", int 500) ]].
Proof. split; reflexivity. Qed.

(** C2, amended: the AIRL page, the AIRL notebook and the SQIL notebook
    neither derive a class from a library class nor call [register].
    10_train_custom_env.ipynb derives exactly one class from a library
    class, [ObservationMatchingEnv] from [gym.Env], and registers it once,
    under the id custom/ObservationMatching-v0 with an episode limit of
    500 steps. *)
Theorem only_custom_env_notebook_provides :
  Forall (fun p => consumer_only (snd p) = true)
    [ ("unnamed/part_000", airl_doc);
      ("unnamed/part_001", airl_notebook);
      ("docs/tutorials/8_train_sqil.ipynb", sqil_notebook) ] /\
  provider_classes custom_env_notebook
    = [("ObservationMatchingEnv", [Attribute (Name "gym") "Env"])] /\
  registrations custom_env_notebook
    = [[ ("id", str "custom/ObservationMatching-v0");
         ("entry_point", Name "ObservationMatchingEnv");
         ("max_episode_steps", int 500) ]].
Proof.
  split; [repeat constructor | split; reflexivity].
Qed.

(** C3, as stated, fails: the SQIL notebook loads the expert
    trajectories before it constructs the environment, and every script
    evaluates the learner before it calls the training loop. *)
Lemma sqil_notebook_stages_out_of_order :
  stage_trace sqil_notebook
    = [CollectRollouts; CollectRollouts; ConstructEnv; ConstructLearner;
       Evaluate; TrainLoop; Evaluate] /\
  ordered (stage_trace sqil_notebook) = false /\
  forallb (fun p => negb (ordered (stage_trace (snd p)))) tutorial_scripts
    = true.
Proof. repeat split. Qed.

(** C3, amended: in the AIRL page, the AIRL notebook and
    10_train_custom_env.ipynb the stages follow each other as: construct
    the environment, load or train the expert policy, collect rollouts,
    construct the learner, evaluate the learner, call the training loop,
    evaluate the learner.  The SQIL notebook loads the expert trajectories,
    then constructs the environment, constructs the learner, evaluates it,
    calls the training loop and evaluates again.  In every script the
    environment, the rollouts and the learner are there and the learner
    has been evaluated once before the training loop is called, and the
    last stage is an evaluation. *)
Theorem stages_of_the_scripts :
  Forall (fun p => squash (stage_trace (snd p))
                   = [ConstructEnv; ObtainExpert; CollectRollouts;
                      ConstructLearner; Evaluate; TrainLoop; Evaluate])
    [ ("unnamed/part_000", airl_doc);
      ("unnamed/part_001", airl_notebook);
      ("docs/tutorials/10_train_custom_env.ipynb", custom_env_notebook) ] /\
  squash (stage_trace sqil_notebook)
    = [CollectRollouts; ConstructEnv; ConstructLearner; Evaluate; TrainLoop;
       Evaluate] /\
  Forall (fun p =>
            forallb (fun g => occurs g (before TrainLoop (stage_trace (snd p))))
              [ConstructEnv; CollectRollouts; ConstructLearner; Evaluate]
            = true /\
            last (stage_trace (snd p)) TrainLoop = Evaluate)
    tutorial_scripts.
Proof.
  split; [repeat constructor | split; [reflexivity | repeat constructor]].
Qed.

(** C4: no statement of any script, at any depth, is a [try] or a [with],
    and so, whatever the libraries do, a script ends normally only if no
    operation raised, and otherwise ends with the exception of the first
    operation that raised, having performed nothing after it. *)
Theorem exceptions_propagate_unhandled :
  Forall (fun p =>
            script_handler_free (snd p) = true /\
            fold_right Nat.add O (map handlers_in (all_stmts (snd p))) = O /\
            forall w, post w 0 (run_script w (snd p)))
    tutorial_scripts.
Proof.
  repeat constructor; simpl snd;
    try (intros w; apply propagates_script); reflexivity.
Qed.

(** C5, as stated, fails: the AIRL page prints the mean reward of the
    trained policy in its last statement but one and ends on the print of
    the rewards that were measured before the training; the AIRL notebook
    prints the two in the same order and ends on the calls that draw the
    histogram. *)
Lemma airl_page_ends_on_the_untrained_reward :
  ends_on_trained_reward airl_doc = false /\
  last (statements airl_doc) (Expr none)
    = print_ [str "mean reward before training:";
              call0 (Attribute (Name "np") "mean")
                [Name "learner_rewards_before_training"]] /\
  ends_on_trained_reward airl_notebook = false /\
  last (statements airl_notebook) (Expr none)
    = Expr (call0 (Attribute (Name "plt") "show") []).
Proof. repeat split. Qed.

(** C5, amended: in every script the last code cell holds a [print], of
    the builtin, of the mean reward that [evaluate_policy] returned for the
    policy of the trainer whose [train] was called last, evaluated after
    that call with nothing in between that rebinds or may change the
    trainer or the policy (the variable itself, or its [np.mean] when the
    rewards of the episodes were asked for), and only prints and plot calls
    follow it in the cell.  No name is read before it is bound, the script
    runs to its end when no operation raises, and every run that ends
    normally has performed that print, and no other print of such a
    reward.  The SQIL notebook and 10_train_custom_env.ipynb end on that
    print; the AIRL page and the AIRL notebook do not. *)
Theorem last_cell_prints_the_trained_reward :
  Forall2 (fun p r =>
             finishes_with_trained_reward (snd p) = true /\
             unbound_names (snd p) = [] /\
             (forall k, snd (run_script (calm k) (snd p)) = Normal) /\
             (forall w, snd (run_script w (snd p)) = Normal ->
                        reported w (snd p) = [r]))
    tutorial_scripts
    [ print_ [str "mean reward after training:";
              call0 (Attribute (Name "np") "mean")
                [Name "learner_rewards_after_training"]];
      print_ [str "mean reward after training:";
              call0 (Attribute (Name "np") "mean")
                [Name "learner_rewards_after_training"]];
      print_labelled "Reward after training: " "reward_after_training";
      print_labelled "Reward after training: " "reward_after_training" ] /\
  map (fun p => ends_on_trained_reward (snd p)) tutorial_scripts
    = [false; false; true; true].
Proof.
  split; [|reflexivity].
  repeat constructor; simpl snd;
    try (intros k; apply calm_never_raises; reflexivity);
    try (intros w Hrun; unfold reported;
         rewrite (completed_all w _ 0%nat Hrun); reflexivity);
    reflexivity.
Qed.

(** What the analysis of C5 tells apart.  A run that an operation stops
    before the print has printed no such reward.  The last cell of the
    SQIL notebook alone reads names that nothing bound and trains nothing
    that the analysis knows.  A last cell that prints a constant, one that
    evaluates the expert, one that evaluates before it trains and one that
    builds the trainer anew after the training print no reward of the
    trained policy. *)
Lemma other_endings_are_not_reports :
  Forall (fun p => reported (failing_at 0 "ImportError") (snd p) = [])
    tutorial_scripts /\
  finishes_with_trained_reward [last sqil_notebook []] = false /\
  unbound_names [last sqil_notebook []]
    = ["sqil_trainer"; "evaluate_policy"; "sqil_trainer"; "venv"] /\
  map finishes_with_trained_reward
    [ with_last_cell sqil_notebook
        [ Expr (Call (Attribute (Name "sqil_trainer") "train") []
                  [("total_timesteps", int 1000)]);
          evaluate_into "reward_after_training"
            (Attribute (Name "sqil_trainer") "policy") (Name "venv") 10 [];
          print_ [str "Reward after training: 500.0"] ];
      with_last_cell custom_env_notebook
        [ Expr (Call (Attribute (Name "bc_trainer") "train") []
                  [("n_epochs", int 1)]);
          evaluate_into "reward_after_training"
            (Name "expert") (Name "env") 10 [];
          print_labelled "Reward after training: " "reward_after_training" ];
      with_last_cell sqil_notebook
        [ evaluate_into "reward_after_training"
            (Attribute (Name "sqil_trainer") "policy") (Name "venv") 10 [];
          Expr (Call (Attribute (Name "sqil_trainer") "train") []
                  [("total_timesteps", int 1000)]);
          print_labelled "Reward after training: " "reward_after_training" ];
      with_last_cell sqil_notebook
        [ Expr (Call (Attribute (Name "sqil_trainer") "train") []
                  [("total_timesteps", int 1000)]);
          Assign (Name "sqil_trainer")
            (Call (Attribute (Name "sqil") "SQIL") []
               [("venv", Name "venv");
                ("demonstrations", Name "expert_trajectories");
                ("policy", str "MlpPolicy")]);
          evaluate_into "reward_after_training"
            (Attribute (Name "sqil_trainer") "policy") (Name "venv") 10 [];
          print_labelled "Reward after training: "
            "reward_after_training" ] ]
    = [false; false; false; false].
Proof. split; [repeat constructor | repeat split]. Qed.

(** C6, as stated, fails: the SQIL notebook passes a list of one
    environment constructor, which is none of the three counts of the
    claim. *)
Lemma sqil_notebook_passes_one_constructor :
  vec_env_sites sqil_notebook = [("DummyVecEnv", Some (Constructors 1))] /\
  forallb (fun c => claimed_count (snd c)) (vec_env_sites sqil_notebook)
    = false.
Proof. split; reflexivity. Qed.

(** C6, amended: the scripts construct vectorized environments at five
    places, each time by a library constructor that receives the count as
    written at the call: [n_envs=8] in the AIRL page and the AIRL notebook,
    a list of one constructor in the SQIL notebook, [n_envs=4] and a list
    of four constructors in 10_train_custom_env.ipynb.  No script imports
    a concurrency module, defines a coroutine or awaits, and
    [SubprocVecEnv] is never called. *)
Theorem parallelism_is_a_count :
  vec_env_sites airl_doc = [("make_vec_env", Some (NEnvs 8))] /\
  vec_env_sites airl_notebook = [("make_vec_env", Some (NEnvs 8))] /\
  vec_env_sites sqil_notebook = [("DummyVecEnv", Some (Constructors 1))] /\
  vec_env_sites custom_env_notebook
    = [("make_vec_env", Some (NEnvs 4));
       ("DummyVecEnv", Some (Constructors 4))] /\
  Forall (fun p => no_concurrency (snd p) = true) tutorial_scripts.
Proof. repeat split; repeat constructor. Qed.



(** C8: whenever [step] returns, its done flag is [False], in every state
    and for every action; it returns whenever the state is set and the
    action has the state's shape; no call in any run reports the end of an
    episode.  In the notebook the only [return] of [step] has the constant
    [False] as its third component, the class does not name [TimeLimit],
    and the registration and both [TimeLimit] wrappers outside the class
    set [max_episode_steps=500]. *)
Theorem step_never_ends_an_episode :
  (forall (rng : Type) (uniform : rng -> nat -> list Q * rng)
          (e : Env rng) (a : list Q),
      match step uniform e a with
      | Ok (_, (_, _, d, _)) => d = false
      | Raise _ => True
      end) /\
  (forall (rng : Type) (uniform : rng -> nat -> list Q * rng)
          (e : Env rng) (s a : list Q),
      0 <= num_options e -> state e = Some s -> length a = length s ->
      exists e' obs r, step uniform e a = Ok (e', (obs, r, false, []))) /\
  (forall (rng : Type) (uniform : rng -> nat -> list Q * rng)
          (entropy : Type)
          (seeding_np_random : entropy -> option Z -> result (rng * Z))
          (e : Env rng) (cs : list (call entropy)),
      forallb (fun o => match done_of o with
                        | Some d => negb d
                        | None => true
                        end)
        (snd (run uniform seeding_np_random e cs)) = true) /\
  done_flags "ObservationMatchingEnv" "step" custom_env_notebook
    = [Some (Constant (CBool false))] /\
  mem "TimeLimit" (names_of_class "ObservationMatchingEnv" custom_env_notebook)
    = false /\
  episode_limits custom_env_notebook
    = [("register", Some (int 500)); ("TimeLimit", Some (int 500));
       ("TimeLimit", Some (int 500))].
Proof.
  split; [intros; apply step_done|].
  split; [intros rng uniform e s a; apply step_returns|].
  split; [intros; apply run_done|].
  repeat split.
Qed.

(** C9: under gym's contract that [np_random(seed)] with a seed depends
    on the seed alone, two instances built with the same [num_options],
    whatever entropy their constructors drew, then seeded with the same
    seed and driven by the same calls of [reset] and [step], return the
    same observations, rewards, flags and exceptions at every call. *)
Theorem seeded_instances_agree :
  forall (rng : Type) (uniform : rng -> nat -> list Q * rng)
         (entropy : Type)
         (seeding_np_random : entropy -> option Z -> result (rng * Z)),
    np_random_seeded seeding_np_random ->
    forall n s h1 h2 g1 g2 (e1 e2 e1' e2' : Env rng) l1 l2 cs,
      init seeding_np_random h1 n = Ok e1 ->
      init seeding_np_random h2 n = Ok e2 ->
      seed seeding_np_random g1 e1 (Some s) = Ok (e1', l1) ->
      seed seeding_np_random g2 e2 (Some s) = Ok (e2', l2) ->
      forallb is_reset_or_step cs = true ->
      snd (run uniform seeding_np_random e1' cs)
      = snd (run uniform seeding_np_random e2' cs).
Proof.
  intros rng uniform entropy seeding_np_random Hseeded
         n s h1 h2 g1 g2 e1 e2 e1' e2' l1 l2 cs Hi1 Hi2 Hs1 Hs2 _.
  destruct (seeded_equal _ _ _ n s h1 h2 g1 g2 e1 e2 e1' e2' l1 l2
              Hseeded Hi1 Hi2 Hs1 Hs2) as [-> _].
  reflexivity.
Qed.

(** The statement at the small generator: two instances built on the
    entropies 1 and 2, both seeded with 42. *)
Lemma seeded_instances_agree_witness :
  np_random_seeded Lcg.np_random /\
  init Lcg.np_random 1 2 = Ok (Lcg.fresh 1) /\
  init Lcg.np_random 2 2 = Ok (Lcg.fresh 2) /\
  seed Lcg.np_random 3 (Lcg.fresh 1) (Some 42) = Ok (Lcg.seeded 42, [42]) /\
  seed Lcg.np_random 4 (Lcg.fresh 2) (Some 42) = Ok (Lcg.seeded 42, [42]) /\
  forallb is_reset_or_step Lcg.episode = true /\
  snd (run Lcg.uniform Lcg.np_random (Lcg.seeded 42) Lcg.episode)
  = snd (run Lcg.uniform Lcg.np_random (Lcg.seeded 42) Lcg.episode).
Proof.
  split; [exact Lcg_np_random_seeded|]. repeat (split; [reflexivity|]).
  exact (seeded_instances_agree Z Lcg.uniform Z Lcg.np_random
           Lcg_np_random_seeded 2 42 1 2 3 4
           (Lcg.fresh 1) (Lcg.fresh 2) (Lcg.seeded 42) (Lcg.seeded 42)
           [42] [42] Lcg.episode eq_refl eq_refl eq_refl eq_refl eq_refl).
Defined.

(** Without the seeding the two instances need not agree. *)
Lemma unseeded_instances_differ :
  snd (run Lcg.uniform Lcg.np_random (Lcg.fresh 1) [CReset])
  <> snd (run Lcg.uniform Lcg.np_random (Lcg.fresh 2) [CReset]).
Proof. vm_compute. intros H. discriminate H. Qed.

End Claims.

(** * Further properties of the environment *)

(** ** Sums and means of rationals *)

Lemma Qsum_nonneg l : Forall (fun x => (0 <= x)%Q) l -> (0 <= Qsum l)%Q.
Proof.
  induction 1 as [|x l Hx _ IH]; simpl.
  - apply Qle_refl.
  - replace 0%Q with (0 + 0)%Q by reflexivity. apply Qplus_le_compat; assumption.
Qed.

Lemma Qsum_le_length l :
  Forall (fun x => (x <= 1)%Q) l ->
  (Qsum l <= inject_Z (Z.of_nat (length l)))%Q.
Proof.
  induction 1 as [|x l Hx _ IH].
  - apply Qle_refl.
  - cbn [Qsum fold_right length]. fold (Qsum l).
    rewrite Nat2Z.inj_succ. unfold Z.succ. rewrite inject_Z_plus.
    rewrite (Qplus_comm (inject_Z (Z.of_nat (length l)))).
    apply Qplus_le_compat; assumption.
Qed.

Lemma Qsum_zero l :
  Forall (fun x => (0 <= x)%Q) l ->
  (Qsum l == 0)%Q <-> Forall (fun x => (x == 0)%Q) l.
Proof.
  induction 1 as [|x l Hx Hl IH]; simpl.
  - split; [constructor | reflexivity].
  - pose proof (Qsum_nonneg l Hl) as Hs. split.
    + intros H.
      assert (Hx0 : (x == 0)%Q).
      { apply Qle_antisym; [|assumption].
        rewrite <- H. rewrite <- (Qplus_0_r x) at 1.
        apply Qplus_le_compat; [apply Qle_refl | assumption]. }
      constructor; [assumption|]. apply IH.
      rewrite Hx0, Qplus_0_l in H. exact H.
    + intros H. inversion H as [|? ? Hx0 Hl0]; subst.
      apply IH in Hl0. rewrite Hx0, Hl0. reflexivity.
Qed.

Lemma length_positive (l : list Q) :
  l <> [] -> (0 < inject_Z (Z.of_nat (length l)))%Q.
Proof.
  destruct l as [|x l]; [congruence|]. intros _.
  unfold Qlt; simpl. lia.
Qed.

Lemma np_abs_nonneg d : Forall (fun x => (0 <= x)%Q) (np_abs d).
Proof.
  unfold np_abs. apply Forall_forall. intros x Hx.
  apply in_map_iff in Hx. destruct Hx as (y & <- & _). apply Qabs_nonneg.
Qed.

(** The mean of absolute values: [nan] on the empty array, and a number
    that is not negative otherwise. *)
Lemma mean_abs_cases d :
  match np_mean (np_abs d) with
  | NaN => d = []
  | Fin q => d <> [] /\ (0 <= q)%Q
  end.
Proof.
  destruct d as [|x d]; [reflexivity|].
  cbn [np_abs map np_mean]. split; [discriminate|].
  apply Qle_shift_div_l.
  - apply (length_positive (Qabs x :: map Qabs d)). discriminate.
  - rewrite Qmult_0_l. apply (Qsum_nonneg (Qabs x :: map Qabs d)).
    apply (np_abs_nonneg (x :: d)).
Qed.

(** ** Subtraction with broadcasting *)

Lemma zip_sub_length a : forall b,
  length a = length b -> length (zip_sub a b) = length a.
Proof.
  induction a as [|x a IH]; intros [|y b] H; simpl in *; try discriminate;
    [reflexivity|]. rewrite IH; [reflexivity | congruence].
Qed.

(** [a - b] raises exactly on shapes that do not broadcast. *)
Lemma np_sub_raises a b :
  match np_sub a b with
  | Ok _ => broadcastable (length a) (length b) = true
  | Raise e => e = ValueError /\ broadcastable (length a) (length b) = false
  end.
Proof.
  unfold np_sub, broadcastable.
  destruct (Nat.eqb_spec (length a) (length b)) as [Heq|Hne]; [reflexivity|].
  destruct a as [|x [|x' a]]; destruct b as [|y [|y' b]]; simpl in *;
    try reflexivity; try (split; reflexivity); congruence.
Qed.

(** The difference is empty exactly when one of the operands is. *)
Lemma np_sub_empty a b d :
  np_sub a b = Ok d -> (d = [] <-> a = [] \/ b = []).
Proof.
  unfold np_sub.
  destruct (Nat.eqb_spec (length a) (length b)) as [Heq|Hne].
  - intros H; inversion H; subst; clear H.
    pose proof (zip_sub_length a b Heq) as Hlen.
    destruct a as [|x a]; destruct b as [|y b]; simpl in *; try discriminate.
    + split; auto.
    + split; [discriminate | intros [H|H]; discriminate].
  - destruct a as [|x [|x' a]]; destruct b as [|y [|y' b]]; simpl in *;
      try congruence; intros H; inversion H; subst; clear H;
      (split; [try discriminate; auto | intros [H|H]; try discriminate; auto]).
Qed.

(** ** One call of [step] *)

Section StepFacts.

Variable rng : Type.
Variable uniform : rng -> nat -> list Q * rng.
Implicit Types e : Env rng.

Lemma draw_raises e :
  match draw uniform e with
  | Ok d => 0 <= num_options e /\
            d = uniform (np_random e) (Z.to_nat (num_options e))
  | Raise x => x = ValueError /\ num_options e < 0
  end.
Proof.
  unfold draw. destruct (Z.ltb_spec (num_options e) 0); split; auto.
Qed.

(** X1: [step] raises AttributeError exactly when no [reset] has set the
    state, ValueError exactly when the action does not broadcast against
    the state (or the size is negative), and nothing else. *)
Theorem step_raises_exactly e a :
  match step uniform e a with
  | Ok _ =>
      exists s, state e = Some s /\
                broadcastable (length s) (length a) = true /\
                0 <= num_options e
  | Raise AttributeError => state e = None
  | Raise ValueError =>
      exists s, state e = Some s /\
                (broadcastable (length s) (length a) = false \/
                 num_options e < 0)
  | Raise GymError => False
  end.
Proof.
  unfold step, bind. destruct (state e) as [s|]; [|reflexivity].
  pose proof (np_sub_raises s a) as Hsub.
  destruct (np_sub s a) as [d|x].
  - pose proof (draw_raises e) as Hdraw.
    destruct (draw uniform e) as [r|x].
    + exists s. destruct Hdraw. auto.
    + destruct Hdraw as [-> Hneg]. exists s. auto.
  - destruct Hsub as [-> Hb]. exists s. auto.
Qed.

Lemma step_reward_value e s a :
  state e = Some s ->
  match step_reward uniform e a with
  | Ok r => exists d, np_sub s a = Ok d /\ r = np_neg (np_mean (np_abs d))
  | Raise _ => True
  end.
Proof.
  intros Hs. unfold step_reward, step, bind. rewrite Hs.
  destruct (np_sub s a) as [d|x]; [|exact I].
  destruct (draw uniform e); [|exact I]. exists d. auto.
Qed.

(** X2: whenever [step] returns, its reward is [nan] if the state or the
    action is an empty array, and it is never a positive number: it is the
    negation of a mean of absolute values.  The statement is about the
    sign alone, which the rounding and the overflow of floats keep. *)
Theorem reward_is_never_positive e s a :
  state e = Some s ->
  match step_reward uniform e a with
  | Ok r =>
      (s = [] \/ a = [] -> r = NaN) /\
      match r with
      | Fin q => (q <= 0)%Q
      | NaN => True
      end
  | Raise _ => True
  end.
Proof.
  intros Hs. pose proof (step_reward_value e s a Hs) as H.
  destruct (step_reward uniform e a) as [r|x]; [|exact I].
  destruct H as (d & Hd & ->).
  pose proof (np_sub_empty s a d Hd) as Hempty.
  pose proof (mean_abs_cases d) as Hmean.
  destruct (np_mean (np_abs d)) as [q|]; simpl.
  - destruct Hmean as [Hne Hq]. split.
    + intros Hsa. exfalso. apply Hne, Hempty, Hsa.
    + apply (Qopp_le_compat 0 q) in Hq. exact Hq.
  - split; [reflexivity | exact I].
Qed.

Lemma Qabs_zero z : (Qabs z == 0)%Q <-> (z == 0)%Q.
Proof.
  split; intros H.
  - apply Qle_antisym.
    + rewrite <- H. apply Qle_Qabs.
    + assert (Hneg : (- z <= 0)%Q).
      { rewrite <- H, <- Qabs_opp. apply Qle_Qabs. }
      apply Qopp_le_compat in Hneg. rewrite Qopp_involutive in Hneg.
      exact Hneg.
  - rewrite H. reflexivity.
Qed.

Lemma zip_sub_zero s : forall a,
  length a = length s ->
  Forall (fun x => (x == 0)%Q) (np_abs (zip_sub s a)) <-> Forall2 Qeq s a.
Proof.
  unfold np_abs.
  induction s as [|x s IH]; intros [|y a] Hlen; try discriminate;
    cbn [zip_sub map].
  - split; constructor.
  - assert (Hlen' : length a = length s) by (simpl in Hlen; congruence).
    specialize (IH a Hlen'). split.
    + intros H. apply Forall_cons_iff in H. destruct H as [Hx Hrest].
      constructor; [|apply IH; exact Hrest].
      apply (proj1 (Qabs_zero (x - y))) in Hx.
      assert (Hsplit : (x == (x - y) + y)%Q) by ring.
      rewrite Hsplit, Hx. apply Qplus_0_l.
    + intros H. apply Forall2_cons_iff in H. destruct H as [Hxy Hrest].
      constructor; [|apply IH; exact Hrest].
      apply Qabs_zero. rewrite Hxy. unfold Qminus. apply Qplus_opp_r.
Qed.

Lemma step_reward_same_shape e s a :
  state e = Some s -> length a = length s -> 0 <= num_options e ->
  step_reward uniform e a = Ok (np_neg (np_mean (np_abs (zip_sub s a)))).
Proof.
  intros Hs Hlen Hpos. unfold step_reward, step, draw, bind, np_sub.
  rewrite Hs, Hlen, Nat.eqb_refl.
  destruct (Z.ltb_spec (num_options e) 0); [lia | reflexivity].
Qed.

Lemma mean_abs_nonempty d :
  d <> [] ->
  np_mean (np_abs d)
  = Fin (Qsum (np_abs d) / inject_Z (Z.of_nat (length (np_abs d))))%Q.
Proof. destruct d; [congruence | reflexivity]. Qed.

Lemma Qdiv_zero x c : (0 < c)%Q -> (- (x / c) == 0)%Q <-> (x == 0)%Q.
Proof.
  intros Hc.
  assert (Hc0 : ~ (c == 0)%Q).
  { intros H. rewrite H in Hc. apply (Qlt_irrefl 0). exact Hc. }
  split; intros H.
  - rewrite <- (Qmult_div_r x c Hc0).
    assert (Hdiv : (x / c == 0)%Q).
    { rewrite <- (Qopp_involutive (x / c)), H. reflexivity. }
    rewrite Hdiv. apply Qmult_0_r.
  - rewrite H. unfold Qdiv. rewrite Qmult_0_l. reflexivity.
Qed.

Lemma matching_action_earns_zero e s a :
  state e = Some s -> length a = length s -> s <> [] ->
  0 <= num_options e ->
  Forall2 Qeq s a ->
  exists q, step_reward uniform e a = Ok (Fin q) /\ (q == 0)%Q.
Proof.
  intros Hs Hlen Hne Hpos Heq.
  rewrite (step_reward_same_shape e s a Hs Hlen Hpos).
  assert (Hd : zip_sub s a <> []).
  { intros H. apply (f_equal (@length Q)) in H.
    rewrite zip_sub_length in H by congruence.
    destruct s; [congruence | discriminate]. }
  rewrite (mean_abs_nonempty _ Hd). cbn [np_neg]. eexists; split; [reflexivity|].
  assert (Hlenpos : (0 < inject_Z (Z.of_nat (length (np_abs (zip_sub s a)))))%Q).
  { apply length_positive. unfold np_abs. destruct (zip_sub s a);
      [congruence | discriminate]. }
  apply (Qdiv_zero _ _ Hlenpos).
  apply (Qsum_zero _ (np_abs_nonneg _)).
  apply zip_sub_zero; [exact Hlen | exact Heq].
Qed.

Lemma abs_diff_le_one s : forall a,
  Forall in_unit_interval s -> Forall in_unit_box a ->
  Forall (fun x => (x <= 1)%Q) (np_abs (zip_sub s a)).
Proof.
  unfold np_abs.
  induction s as [|x s IH]; intros [|y a] Hs Ha; cbn [zip_sub map];
    try constructor.
  - apply Forall_cons_iff in Hs. apply Forall_cons_iff in Ha.
    destruct Hs as [[Hx0 Hx1] _]. destruct Ha as [[Hy0 Hy1] _].
    apply Qabs_Qle_condition. split.
    + apply Qle_trans with (0 - y)%Q.
      * unfold Qminus. rewrite Qplus_0_l. apply Qopp_le_compat. exact Hy1.
      * unfold Qminus. apply Qplus_le_compat; [exact Hx0 | apply Qle_refl].
    + apply Qle_trans with (x - 0)%Q.
      * unfold Qminus. apply Qplus_le_compat; [apply Qle_refl|].
        apply Qopp_le_compat. exact Hy0.
      * unfold Qminus. change (- 0)%Q with 0%Q. rewrite Qplus_0_r.
        apply Qlt_le_weak. exact Hx1.
  - apply IH.
    + apply Forall_cons_iff in Hs. apply Hs.
    + apply Forall_cons_iff in Ha. apply Ha.
Qed.

Lemma reward_bounds_same_shape e s a :
  state e = Some s -> length a = length s -> s <> [] ->
  0 <= num_options e ->
  Forall in_unit_interval s -> Forall in_unit_box a ->
  exists q, step_reward uniform e a = Ok (Fin q) /\
            (- (1) <= q)%Q /\ (q <= 0)%Q.
Proof.
  intros Hs Hlen Hne Hpos Hin Hbox.
  rewrite (step_reward_same_shape e s a Hs Hlen Hpos).
  assert (Hd : zip_sub s a <> []).
  { intros H. apply (f_equal (@length Q)) in H.
    rewrite zip_sub_length in H by congruence.
    destruct s; [congruence | discriminate]. }
  rewrite (mean_abs_nonempty _ Hd). cbn [np_neg]. eexists; split; [reflexivity|].
  assert (Hlenpos : (0 < inject_Z (Z.of_nat (length (np_abs (zip_sub s a)))))%Q).
  { apply length_positive. unfold np_abs. destruct (zip_sub s a);
      [congruence | discriminate]. }
  split.
  - apply Qopp_le_compat. apply Qle_shift_div_r; [exact Hlenpos|].
    rewrite Qmult_1_l. apply Qsum_le_length. apply abs_diff_le_one; assumption.
  - apply (Qopp_le_compat 0). apply Qle_shift_div_l; [exact Hlenpos|].
    rewrite Qmult_0_l. apply Qsum_nonneg. apply np_abs_nonneg.
Qed.

End StepFacts.

(** ** Runs of calls *)

Section RunFacts.

Variable rng : Type.
Variable uniform : rng -> nat -> list Q * rng.
Variable entropy : Type.
Variable seeding_np_random : entropy -> option Z -> result (rng * Z).
Implicit Types e : Env rng.

Lemma seed_keeps h e sd e' l :
  seed seeding_np_random h e sd = Ok (e', l) ->
  num_options e' = num_options e /\
  observation_space e' = observation_space e /\
  action_space e' = action_space e /\
  state e' = state e /\ length l = 1%nat.
Proof.
  unfold seed, seed_attrs, bind.
  destruct (seeding_np_random h sd); [|discriminate].
  intros H; inversion H; subst. repeat split.
Qed.

Lemma reset_keeps e e' obs :
  reset uniform e = Ok (e', obs) ->
  num_options e' = num_options e /\
  observation_space e' = observation_space e /\
  action_space e' = action_space e /\
  state e' = Some obs /\ 0 <= num_options e.
Proof.
  unfold reset, bind. pose proof (draw_raises _ uniform e) as Hd.
  destruct (draw uniform e) as [d|]; [|discriminate].
  intros H; inversion H; subst. destruct Hd as [Hpos _]. repeat split; auto.
Qed.

Lemma step_keeps e a e' ret :
  step uniform e a = Ok (e', ret) ->
  num_options e' = num_options e /\
  observation_space e' = observation_space e /\
  action_space e' = action_space e /\
  state e' = Some (fst (fst (fst ret))) /\ 0 <= num_options e.
Proof.
  unfold step, bind. destruct (state e) as [s|]; [|discriminate].
  destruct (np_sub s a); [|discriminate].
  pose proof (draw_raises _ uniform e) as Hd.
  destruct (draw uniform e) as [d|]; [|discriminate].
  intros H; inversion H; subst. destruct Hd as [Hpos _]. repeat split; auto.
Qed.

Lemma do_call_keeps e c :
  num_options (fst (do_call uniform seeding_np_random e c)) = num_options e /\
  observation_space (fst (do_call uniform seeding_np_random e c))
    = observation_space e /\
  action_space (fst (do_call uniform seeding_np_random e c)) = action_space e.
Proof.
  destruct c as [h sd| |a]; unfold do_call.
  - destruct (seed seeding_np_random h e sd) as [[e' l]|x] eqn:Hs; simpl;
      [|auto]. apply seed_keeps in Hs. tauto.
  - destruct (reset uniform e) as [[e' obs]|x] eqn:Hr; simpl; [|auto].
    apply reset_keeps in Hr. tauto.
  - destruct (step uniform e a) as [[e' ret]|x] eqn:Hs; simpl; [|auto].
    apply step_keeps in Hs. tauto.
Qed.

Lemma run_keeps cs : forall e,
  num_options (fst (run uniform seeding_np_random e cs)) = num_options e /\
  observation_space (fst (run uniform seeding_np_random e cs))
    = observation_space e /\
  action_space (fst (run uniform seeding_np_random e cs)) = action_space e.
Proof.
  induction cs as [|c cs IH]; intros e; simpl; [auto|].
  pose proof (do_call_keeps e c) as Hc.
  destruct (do_call uniform seeding_np_random e c) as [e1 o]; simpl in Hc.
  specialize (IH e1).
  destruct (run uniform seeding_np_random e1 cs) as [e2 os]; simpl in *.
  destruct Hc as (H1 & H2 & H3). destruct IH as (I1 & I2 & I3).
  repeat split; congruence.
Qed.

Lemma init_spaces h n e0 :
  init seeding_np_random h n = Ok e0 ->
  num_options e0 = n /\ 0 <= n /\
  observation_space e0 = mkBox 0 1 n /\ action_space e0 = mkBox 0 1 n /\
  state e0 = None.
Proof.
  unfold init, bind.
  destruct (new_Box 0 1 n) as [b|] eqn:Hb; [|discriminate].
  destruct (seed_attrs seeding_np_random h None); [|discriminate].
  intros H; inversion H; subst; clear H.
  apply new_Box_ok in Hb. destruct Hb as [Hn ->]. repeat split; auto.
Qed.

(** X4: no call changes [num_options], [observation_space] or
    [action_space]; hence on an instance built by [__init__], whatever was
    called before, [reset] does not raise and leaves the observation it
    returns as the state. *)
Theorem spaces_never_change :
  (forall e cs,
      num_options (fst (run uniform seeding_np_random e cs)) = num_options e /\
      observation_space (fst (run uniform seeding_np_random e cs))
        = observation_space e /\
      action_space (fst (run uniform seeding_np_random e cs))
        = action_space e) /\
  (forall h n e0 cs,
      init seeding_np_random h n = Ok e0 ->
      action_space (fst (run uniform seeding_np_random e0 cs)) = mkBox 0 1 n /\
      exists e' obs,
        reset uniform (fst (run uniform seeding_np_random e0 cs))
          = Ok (e', obs) /\
        state e' = Some obs).
Proof.
  split; [intros e cs; apply run_keeps|].
  intros h n e0 cs Hinit.
  destruct (init_spaces h n e0 Hinit) as (Hn & Hpos & _ & Hact & _).
  destruct (run_keeps cs e0) as (Hn' & _ & Hact').
  split; [congruence|].
  unfold reset, draw, bind. rewrite Hn', Hn.
  destruct (Z.ltb_spec n 0); [lia|]. eexists; eexists; split; reflexivity.
Qed.

(** X5: the observation that [reset] or [step] returns is the state the
    next reward is measured against: answering a non-empty observation
    with itself earns the reward zero. *)
Theorem echoing_the_observation_earns_zero e c e1 o obs :
  do_call uniform seeding_np_random e c = (e1, o) ->
  observation_of o = Some obs ->
  obs <> [] ->
  exists q, step_reward uniform e1 obs = Ok (Fin q) /\ (q == 0)%Q.
Proof.
  intros Hcall Hobs Hne.
  assert (Hst : state e1 = Some obs /\ 0 <= num_options e1).
  { destruct c as [h sd| |a]; unfold do_call in Hcall.
    - destruct (seed seeding_np_random h e sd) as [[? ?]|?];
        inversion Hcall; subst; discriminate.
    - destruct (reset uniform e) as [[e' obs']|?] eqn:Hr;
        inversion Hcall; subst; [|discriminate].
      inversion Hobs; subst. apply reset_keeps in Hr.
      destruct Hr as (-> & _ & _ & Hs & Hpos). auto.
    - destruct (step uniform e a) as [[e' [[[obs' r] d] i]]|?] eqn:Hs;
        inversion Hcall; subst; [|discriminate].
      inversion Hobs; subst. apply step_keeps in Hs.
      destruct Hs as (-> & _ & _ & Hs & Hpos). auto. }
  destruct Hst as [Hst Hpos].
  apply (matching_action_earns_zero _ uniform e1 obs obs
           Hst eq_refl Hne Hpos).
  clear. induction obs; constructor; [reflexivity | assumption].
Qed.

(** X6: [seed] replaces the generator and nothing else: the state stays,
    so every action earns after it what it would have earned before, and
    the list it returns has one entry. *)
Theorem seed_keeps_the_episode h e sd e' l :
  seed seeding_np_random h e sd = Ok (e', l) ->
  state e' = state e /\ length l = 1%nat /\
  forall a, step_reward uniform e' a = step_reward uniform e a.
Proof.
  intros Hseed. destruct (seed_keeps _ _ _ _ _ Hseed) as (Hn & _ & _ & Hs & Hl).
  split; [exact Hs|]. split; [exact Hl|].
  intros a. unfold step_reward, step, draw, bind. rewrite Hs, Hn.
  destruct (state e) as [s|]; [|reflexivity].
  destruct (np_sub s a); [|reflexivity].
  destruct (num_options e <? 0); reflexivity.
Qed.

(** Before the first [reset] the state stays unset. *)
Lemma unset_state_stays cs : forall e,
  state e = None -> existsb is_reset cs = false ->
  state (fst (run uniform seeding_np_random e cs)) = None /\
  observations (snd (run uniform seeding_np_random e cs)) = [] /\
  Forall2 (fun c o => match c with
                      | CStep _ => o = ORaise AttributeError
                      | _ => True
                      end)
    cs (snd (run uniform seeding_np_random e cs)).
Proof.
  induction cs as [|c cs IH]; intros e Hnone Hcs; simpl.
  - split; [exact Hnone|]. split; [reflexivity | constructor].
  - simpl in Hcs. apply orb_false_iff in Hcs. destruct Hcs as [Hc Hcs].
    assert (Hone : state (fst (do_call uniform seeding_np_random e c)) = None
                   /\ observation_of (snd (do_call uniform seeding_np_random e c))
                      = None
                   /\ match c with
                      | CStep _ =>
                          snd (do_call uniform seeding_np_random e c)
                          = ORaise AttributeError
                      | _ => True
                      end).
    { destruct c as [h sd| |a]; [| discriminate |]; unfold do_call.
      - destruct (seed seeding_np_random h e sd) as [[e' l]|x] eqn:Hs; simpl;
          [|auto]. apply seed_keeps in Hs. destruct Hs as (_ & _ & _ & -> & _).
        auto.
      - unfold step. rewrite Hnone. simpl. auto. }
    destruct (do_call uniform seeding_np_random e c) as [e1 o]; simpl in Hone.
    destruct Hone as (H1 & Ho & Hc1).
    destruct (IH e1 H1 Hcs) as (H2 & Hobs & Hall).
    destruct (run uniform seeding_np_random e1 cs) as [e2 os]; simpl in *.
    rewrite Ho. repeat split; auto.
Qed.

(** X7: on an instance built by [__init__], as long as [reset] was not
    called, every [step] raises AttributeError, whatever its action and
    whatever calls of [seed] went before, and no observation is
    returned. *)
Theorem step_before_reset_raises h n e0 cs :
  init seeding_np_random h n = Ok e0 ->
  existsb is_reset cs = false ->
  state (fst (run uniform seeding_np_random e0 cs)) = None /\
  observations (snd (run uniform seeding_np_random e0 cs)) = [] /\
  Forall2 (fun c o => match c with
                      | CStep _ => o = ORaise AttributeError
                      | _ => True
                      end)
    cs (snd (run uniform seeding_np_random e0 cs)).
Proof.
  intros Hinit Hcs. apply unset_state_stays; [|exact Hcs].
  apply (init_spaces h n e0 Hinit).
Qed.

End RunFacts.

Section RunFactsWithUniform.

Variable rng : Type.
Variable uniform : rng -> nat -> list Q * rng.
Variable entropy : Type.
Variable seeding_np_random : entropy -> option Z -> result (rng * Z).
Hypothesis Huniform : uniform_spec uniform.
Implicit Types e : Env rng.

Lemma box_action n a :
  Box_contains (mkBox 0 1 n) a = true ->
  length a = Z.to_nat n /\ Forall in_unit_box a.
Proof.
  unfold Box_contains; simpl. intros H.
  apply andb_true_iff in H. destruct H as [Hlen Hall].
  apply Z.eqb_eq in Hlen. split; [lia|].
  rewrite forallb_forall in Hall. apply Forall_forall. intros x Hx.
  specialize (Hall x Hx). apply andb_true_iff in Hall.
  destruct Hall as [H0 H1]. split; apply Qle_bool_iff; assumption.
Qed.

(** X8: on an instance built by [__init__] with at least one option,
    after any calls, an action of the action space earns a reward from -1
    to 0; the only way [step] can refuse it is AttributeError, when no
    [reset] has set the state. *)
Theorem reward_of_a_box_action_is_bounded h n e0 cs a :
  init seeding_np_random h n = Ok e0 ->
  0 < n ->
  Box_contains (action_space e0) a = true ->
  match step_reward uniform (fst (run uniform seeding_np_random e0 cs)) a with
  | Ok r => exists q, r = Fin q /\ (- (1) <= q)%Q /\ (q <= 0)%Q
  | Raise x =>
      x = AttributeError /\
      state (fst (run uniform seeding_np_random e0 cs)) = None
  end.
Proof.
  intros Hinit Hn Hbox.
  destruct (init_spaces _ _ _ _ _ _ Hinit) as (_ & _ & _ & Hact & _).
  rewrite Hact in Hbox. apply box_action in Hbox. destruct Hbox as [Hlen Hall].
  destruct (init_inv _ _ _ _ _ _ Hinit) as [Hinv _].
  destruct (run_inv _ uniform _ seeding_np_random Huniform n cs e0 Hinv)
    as ((Hn' & Hpos & _ & Hok) & _ & _).
  unfold state_ok in Hok. rewrite Hn' in Hok.
  destruct (state (fst (run uniform seeding_np_random e0 cs)))
    as [s|] eqn:Hs.
  - destruct Hok as [Hslen Hsall].
    assert (Hne : s <> []).
    { intros ->. simpl in Hslen. lia. }
    destruct (reward_bounds_same_shape _ uniform _ s a Hs
                ltac:(congruence) Hne ltac:(lia) Hsall Hall)
      as (q & -> & Hq).
    exists q. auto.
  - unfold step_reward, step. rewrite Hs. auto.
Qed.

Lemma accepted_step n e a1 a2 :
  env_inv n e ->
  broadcastable (Z.to_nat n) (length a1) = true ->
  broadcastable (Z.to_nat n) (length a2) = true ->
  fst (do_call uniform seeding_np_random e (CStep a1))
  = fst (do_call uniform seeding_np_random e (CStep a2)) /\
  observation_of (snd (do_call uniform seeding_np_random e (CStep a1)))
  = observation_of (snd (do_call uniform seeding_np_random e (CStep a2))).
Proof.
  intros (Hn & Hpos & _ & Hok) H1 H2. unfold do_call, step, bind.
  unfold state_ok in Hok. destruct (state e) as [s|]; [|auto].
  destruct Hok as [Hlen _]. rewrite Hn in Hlen.
  pose proof (np_sub_raises s a1) as R1. pose proof (np_sub_raises s a2) as R2.
  rewrite Hlen in R1, R2.
  destruct (np_sub s a1) as [d1|]; [|destruct R1; congruence].
  destruct (np_sub s a2) as [d2|]; [|destruct R2; congruence].
  destruct (draw uniform e); auto.
Qed.

Lemma same_observations n cs1 : forall cs2 e,
  env_inv n e ->
  map forget_action cs1 = map forget_action cs2 ->
  forallb (accepted (Z.to_nat n)) cs1 = true ->
  forallb (accepted (Z.to_nat n)) cs2 = true ->
  fst (run uniform seeding_np_random e cs1)
  = fst (run uniform seeding_np_random e cs2) /\
  observations (snd (run uniform seeding_np_random e cs1))
  = observations (snd (run uniform seeding_np_random e cs2)).
Proof.
  induction cs1 as [|c1 cs1 IH]; intros [|c2 cs2] e Hinv Hmap H1 H2;
    try discriminate; [split; reflexivity|].
  simpl in Hmap, H1, H2. inversion Hmap as [[Hc Hrest]].
  apply andb_true_iff in H1. apply andb_true_iff in H2.
  destruct H1 as [A1 H1]. destruct H2 as [A2 H2].
  assert (Hone : fst (do_call uniform seeding_np_random e c1)
                 = fst (do_call uniform seeding_np_random e c2) /\
                 observation_of (snd (do_call uniform seeding_np_random e c1))
                 = observation_of (snd (do_call uniform seeding_np_random e c2))).
  { destruct c1 as [h1 sd1| |a1]; destruct c2 as [h2 sd2| |a2];
      try discriminate.
    - inversion Hc; subst. split; reflexivity.
    - split; reflexivity.
    - apply (accepted_step n); assumption. }
  destruct (do_call_inv _ uniform _ seeding_np_random Huniform n e c1 Hinv)
    as (Hinv1 & _).
  cbn [run].
  destruct (do_call uniform seeding_np_random e c1) as [e1 o1].
  destruct (do_call uniform seeding_np_random e c2) as [e2 o2].
  simpl in Hone, Hinv1. destruct Hone as [<- Ho].
  destruct (IH cs2 e1 Hinv1 Hrest H1 H2) as [He Hobs].
  destruct (run uniform seeding_np_random e1 cs1) as [e1' os1].
  destruct (run uniform seeding_np_random e1 cs2) as [e2' os2].
  simpl in *. split; [exact He|].
  rewrite Ho. destruct (observation_of o2); congruence.
Qed.

(** X9: the actions have no influence on the observations: two runs of the
    same calls on an instance built by [__init__], with whatever actions
    [step] accepts for their shape, return the same observations and end
    in the same state and generator. *)
Theorem observations_do_not_depend_on_actions h n e0 cs1 cs2 :
  init seeding_np_random h n = Ok e0 ->
  map forget_action cs1 = map forget_action cs2 ->
  forallb (accepted (Z.to_nat n)) cs1 = true ->
  forallb (accepted (Z.to_nat n)) cs2 = true ->
  observations (snd (run uniform seeding_np_random e0 cs1))
  = observations (snd (run uniform seeding_np_random e0 cs2)) /\
  fst (run uniform seeding_np_random e0 cs1)
  = fst (run uniform seeding_np_random e0 cs2).
Proof.
  intros Hinit Hmap H1 H2.
  destruct (init_inv _ _ _ _ _ _ Hinit) as [Hinv _].
  destruct (same_observations n cs1 cs2 e0 Hinv Hmap H1 H2). auto.
Qed.

End RunFactsWithUniform.

(** ** The statements at the small generator *)

Lemma reward_is_never_positive_witness :
  state (Lcg.started 7) = Some [(1 # 2)%Q; (1 # 4)%Q] /\
  (exists q,
     step_reward Lcg.uniform (Lcg.started 7) [(1 # 4)%Q; (1 # 4)%Q]
     = Ok (Fin q) /\ (q == - (1 # 8))%Q) /\
  match step_reward Lcg.uniform (Lcg.started 7) [(1 # 4)%Q; (1 # 4)%Q] with
  | Ok r =>
      ([(1 # 2)%Q; (1 # 4)%Q] = [] \/ [(1 # 4)%Q; (1 # 4)%Q] = [] ->
       r = NaN) /\
      match r with
      | Fin q => (q <= 0)%Q
      | NaN => True
      end
  | Raise _ => True
  end.
Proof.
  split; [reflexivity|].
  split; [eexists; split; [reflexivity | reflexivity]|].
  apply (reward_is_never_positive Z Lcg.uniform (Lcg.started 7)).
  reflexivity.
Defined.

Lemma echoing_the_observation_earns_zero_witness :
  do_call Lcg.uniform Lcg.np_random (Lcg.fresh 7) CReset
  = (fst (do_call Lcg.uniform Lcg.np_random (Lcg.fresh 7) CReset),
     OReset (fst (Lcg.uniform 7 2))) /\
  fst (Lcg.uniform 7 2) <> [] /\
  exists q,
    step_reward Lcg.uniform
      (fst (do_call Lcg.uniform Lcg.np_random (Lcg.fresh 7) CReset))
      (fst (Lcg.uniform 7 2)) = Ok (Fin q) /\
    (q == 0)%Q.
Proof.
  split; [reflexivity|]. split; [discriminate|].
  apply (echoing_the_observation_earns_zero Z Lcg.uniform Z Lcg.np_random
           (Lcg.fresh 7) CReset _ (OReset (fst (Lcg.uniform 7 2))));
    [reflexivity | reflexivity | discriminate].
Defined.

Lemma seed_keeps_the_episode_witness :
  seed Lcg.np_random 5 (Lcg.started 7) (Some 9) = Ok (Lcg.started 9, [9]) /\
  state (Lcg.started 9) = state (Lcg.started 7) /\
  step_reward Lcg.uniform (Lcg.started 9) [0%Q; 1%Q]
  = step_reward Lcg.uniform (Lcg.started 7) [0%Q; 1%Q].
Proof.
  split; [reflexivity|].
  destruct (seed_keeps_the_episode Z Lcg.uniform Z Lcg.np_random 5
              (Lcg.started 7) (Some 9) (Lcg.started 9) [9] eq_refl)
    as (Hstate & _ & Hreward).
  split; [exact Hstate | apply Hreward].
Defined.

Lemma step_before_reset_raises_witness :
  init Lcg.np_random 7 2 = Ok (Lcg.fresh 7) /\
  existsb is_reset Lcg.unstarted = false /\
  observations (snd (run Lcg.uniform Lcg.np_random (Lcg.fresh 7)
                       Lcg.unstarted)) = [].
Proof.
  split; [reflexivity|]. split; [reflexivity|].
  apply (step_before_reset_raises Z Lcg.uniform Z Lcg.np_random 7 2
           (Lcg.fresh 7) Lcg.unstarted eq_refl eq_refl).
Defined.

Lemma reward_of_a_box_action_is_bounded_witness :
  uniform_spec Lcg.uniform /\
  init Lcg.np_random 7 2 = Ok (Lcg.fresh 7) /\
  0 < 2 /\
  Box_contains (action_space (Lcg.fresh 7)) [0%Q; 1%Q] = true /\
  match step_reward Lcg.uniform
          (fst (run Lcg.uniform Lcg.np_random (Lcg.fresh 7) Lcg.episode))
          [0%Q; 1%Q] with
  | Ok r => exists q, r = Fin q /\ (- (1) <= q)%Q /\ (q <= 0)%Q
  | Raise x =>
      x = AttributeError /\
      state (fst (run Lcg.uniform Lcg.np_random (Lcg.fresh 7) Lcg.episode))
      = None
  end.
Proof.
  split; [exact Lcg_uniform_spec|]. split; [reflexivity|].
  split; [reflexivity|]. split; [reflexivity|].
  apply (reward_of_a_box_action_is_bounded Z Lcg.uniform Z Lcg.np_random
           Lcg_uniform_spec 7 2 (Lcg.fresh 7) Lcg.episode [0%Q; 1%Q]);
    reflexivity.
Defined.

Lemma observations_do_not_depend_on_actions_witness :
  uniform_spec Lcg.uniform /\
  init Lcg.np_random 7 2 = Ok (Lcg.fresh 7) /\
  map forget_action Lcg.episode = map forget_action Lcg.other_episode /\
  forallb (accepted (Z.to_nat 2)) Lcg.episode = true /\
  forallb (accepted (Z.to_nat 2)) Lcg.other_episode = true /\
  observations (snd (run Lcg.uniform Lcg.np_random (Lcg.fresh 7)
                       Lcg.episode))
  = observations (snd (run Lcg.uniform Lcg.np_random (Lcg.fresh 7)
                         Lcg.other_episode)).
Proof.
  split; [exact Lcg_uniform_spec|]. repeat (split; [reflexivity|]).
  apply (observations_do_not_depend_on_actions Z Lcg.uniform Z Lcg.np_random
           Lcg_uniform_spec 7 2 (Lcg.fresh 7) Lcg.episode Lcg.other_episode);
    reflexivity.
Defined.

(** * Further properties of the scripts *)

Section ScriptFacts.
Import Py Tutorials Analysis.
Open Scope string_scope.
Open Scope list_scope.

(** X10: run from top to bottom, no script reads a name that an earlier
    statement, a parameter or a builtin has not bound.  In
    10_train_custom_env.ipynb this stays so when the two cells of step 2a
    are left out, and when the cell of step 2b is left out, as the
    notebook says; with both left out [env], [venv] and [rollout] are
    read unbound. *)
Theorem names_are_bound_before_use :
  Forall (fun p => unbound_names (snd p) = []) tutorial_scripts /\
  unbound_names (without [1; 2]%nat custom_env_notebook) = [] /\
  unbound_names (without [3]%nat custom_env_notebook) = [] /\
  nodup string_dec (unbound_names (without [1; 2; 3]%nat custom_env_notebook))
    = ["venv"; "rollout"; "env"].
Proof.
  split; [repeat constructor|]. repeat split.
Qed.

(** X11: when 10_train_custom_env.ipynb runs from top to bottom, the
    [env] and [venv] of step 2a are bound anew by step 2b before anything
    reads them: from then on [env] denotes
    [TimeLimit(ObservationMatchingEnv(), max_episode_steps=500)] and
    [venv] the [DummyVecEnv] of four [_make_env].  No other script
    overwrites a variable it has not read. *)
Theorem step_2b_replaces_step_2a :
  dead_stores (statements custom_env_notebook)
    = [ ("env", call0 (Attribute (Name "gym") "make")
                  [str "custom/ObservationMatching-v0"]);
        ("venv", Call (Name "make_vec_env")
                   [str "custom/ObservationMatching-v0"]
                   [("rng", default_rng []);
                    ("n_envs", int 4);
                    ("post_wrappers", List_ [rollout_info_wrapper_lambda])]) ] /\
  denotation "env" custom_env_notebook
    = Some (time_limit (call0 (Name "ObservationMatchingEnv") [])) /\
  denotation "venv" custom_env_notebook
    = Some (call0 (Name "DummyVecEnv")
              [ListComp (Name "_make_env") "_" (call0 (Name "range") [int 4])]) /\
  Forall (fun p => dead_stores (statements (snd p)) = [])
    [ ("unnamed/part_000", airl_doc);
      ("unnamed/part_001", airl_notebook);
      ("docs/tutorials/8_train_sqil.ipynb", sqil_notebook) ].
Proof.
  repeat split; repeat constructor.
Qed.

(** X12: [_make_env] returns what its docstring asks for, a
    [RolloutInfoWrapper], and what it wraps is the construction that the
    single environment [env] denotes: an [ObservationMatchingEnv] under a
    [TimeLimit] of 500 steps. *)
Theorem make_env_returns_the_wrapped_env :
  returned [] (function_body "_make_env" custom_env_notebook)
    = Some (call0 (Name "RolloutInfoWrapper")
              [time_limit (call0 (Name "ObservationMatchingEnv") [])]) /\
  returned [] (function_body "_make_env" custom_env_notebook)
    = option_map (fun e => call0 (Name "RolloutInfoWrapper") [e])
        (denotation "env" custom_env_notebook).
Proof. split; reflexivity. Qed.

(** X13: the example of the AIRL page is the code of the AIRL notebook:
    without the imports and the calls into matplotlib, the notebook's
    statements are the page's statements, but for the two keyword
    arguments [ent_coef] and [min_timesteps] that only the notebook
    passes; and the notebook imports what the page imports and
    matplotlib. *)
Theorem airl_page_is_the_notebook :
  core ["ent_coef"; "min_timesteps"] airl_notebook = core [] airl_doc /\
  core [] airl_notebook <> core [] airl_doc /\
  subset (imports airl_doc) (imports airl_notebook) = true /\
  subset (imports airl_notebook)
         (("matplotlib.pyplot", "plt") :: imports airl_doc) = true.
Proof.
  split; [reflexivity|]. split; [|split; reflexivity].
  intros H. vm_compute in H. discriminate H.
Qed.

End ScriptFacts.
